(** * Actuators of [sympy.physics.mechanics._actuator]

    A shallow embedding of [ForceActuator] and [TorqueActuator]: the
    validating property setters, the constructors, the alternate
    constructor [at_pin_joint], [to_loads] and [__repr__], followed by the
    properties of the module's specification.

    Python values are dynamically typed, so attributes hold values of a
    universe [pyval] and every [isinstance] test of the source is a test
    on that universe.  Methods run in a state-and-exception monad over the
    instance attributes of [self]: an exception does not roll the state
    back, exactly as in Python. *)

From Stdlib Require Import String Ascii List ZArith Lia Bool DecimalString.
Import ListNotations.
Local Open Scope string_scope.
Set Warnings "-register-all".

(** ** The external engine

    The symbolic scalars, the vectors, the frames, the points and the
    pathways are sympy classes that live outside [_actuator.py].  The
    actuator module only uses the operations below. *)

Class Engine : Type := {
  Expr : Type;                       (* instances of [ExprType] *)
  Vector : Type;                     (* sympy.physics.vector.Vector *)
  ReferenceFrame : Type;
  Point : Type;
  Pathway : Type;                    (* instances of concrete [PathwayBase] subclasses *)
  World : Type;                      (* geometry owned by points and frames *)
  expr_zero : Expr;
  expr_add : Expr -> Expr -> Expr;
  expr_neg : Expr -> Expr;           (* [-e] *)
  vec_zero : Vector;
  vec_add : Vector -> Vector -> Vector;
  scale : Expr -> Vector -> string + Vector;
                                     (* [e * v]: a vector, or the error the
                                        product raises (the message) *)
  expr_str : Expr -> string;         (* [str(e)] *)
  vector_str : Vector -> string;
  frame_name : ReferenceFrame -> string;  (* [str(frame)] is its name *)
  pathway_str : Pathway -> string
}.

(** The laws of the scalar/vector algebra that the zero-sum property of a
    torque pair rests on: additive inverses of scalars, and scaling being
    additive in the scalar wherever the products are defined.  An engine
    need not satisfy them. *)
Class EngineLaws (E : Engine) : Prop := {
  expr_add_neg_r : forall e : Expr, expr_add e (expr_neg e) = expr_zero;
  scale_add_l : forall (a b : Expr) (v ma mb : Vector),
      scale a v = inr ma -> scale b v = inr mb ->
      scale (expr_add a b) v = inr (vec_add ma mb);
  scale_zero_l : forall v : Vector, scale expr_zero v = inr vec_zero
}.

Section Actuators.

Context {E : Engine}.

(** Loads are the named pairs of [sympy.physics.mechanics.loads]. *)
Inductive Load : Type :=
| Force (point : Point) (force : Vector)
| Torque (frame : ReferenceFrame) (torque : Vector).

(** [compute_loads] is the abstract method of [PathwayBase]: it reads the
    geometry and either returns loads or raises an error of its own. *)
Class PathwayImpl : Type :=
  compute_loads : Pathway -> World -> Expr -> string + list Load.

Context {PI : PathwayImpl}.

(** A rigid body and a pin joint, reduced to the attributes this module
    reads.  [RigidBody.frame] is a [ReferenceFrame]; the interframes of a
    joint are [ReferenceFrame]s and its axis is a [Vector]. *)
Record RigidBody : Type := {
  body_name : string;
  frame : ReferenceFrame
}.

Record PinJoint : Type := {
  joint_name : string;
  joint_axis : Vector;
  parent_interframe : ReferenceFrame;
  child_interframe : ReferenceFrame
}.

(** The classes that the module tests with [isinstance]. *)
Inductive pyclass : Type :=
| cls_ExprType
| cls_PathwayBase
| cls_Vector
| cls_ReferenceFrame
| cls_RigidBody
| cls_PinJoint.

(** Python values.  [PyObject] is an instance of any class unrelated to
    the six above (an [int], a [str], a [PrismaticJoint], a user class): it
    carries its class name, what [str] returns on it, and its attributes. *)
Inductive pyval : Type :=
| PyNone
| PyExpr (e : Expr)
| PyVector (v : Vector)
| PyReferenceFrame (f : ReferenceFrame)
| PyRigidBody (b : RigidBody)
| PyPathway (p : Pathway)
| PyPinJoint (j : PinJoint)
| PyObject (class_name : string) (obj_str : string) (attrs : list (string * pyval)).

Definition isinstance (x : pyval) (c : pyclass) : bool :=
  match x, c with
  | PyExpr _, cls_ExprType => true
  | PyPathway _, cls_PathwayBase => true
  | PyVector _, cls_Vector => true
  | PyReferenceFrame _, cls_ReferenceFrame => true
  | PyRigidBody _, cls_RigidBody => true
  | PyPinJoint _, cls_PinJoint => true
  | _, _ => false
  end.

Definition is_None (x : pyval) : bool :=
  match x with PyNone => true | _ => false end.

Fixpoint assoc (name : string) (attrs : list (string * pyval)) : option pyval :=
  match attrs with
  | [] => None
  | (k, v) :: rest => if String.eqb k name then Some v else assoc name rest
  end.

(** Attribute lookup [x.name], for the attributes the module reads. *)
Definition getattr (x : pyval) (name : string) : option pyval :=
  match x with
  | PyRigidBody b =>
      if String.eqb name "frame" then Some (PyReferenceFrame (frame b))
      else None
  | PyPinJoint j =>
      if String.eqb name "joint_axis" then Some (PyVector (joint_axis j))
      else if String.eqb name "parent_interframe"
           then Some (PyReferenceFrame (parent_interframe j))
      else if String.eqb name "child_interframe"
           then Some (PyReferenceFrame (child_interframe j))
      else None
  | PyObject _ _ attrs => assoc name attrs
  | _ => None
  end.

Definition hasattr (x : pyval) (name : string) : bool :=
  match getattr x name with Some _ => true | None => false end.

(** [str(x)], as used by the f-strings of [__repr__]. *)
Definition py_str (x : pyval) : string :=
  match x with
  | PyNone => "None"
  | PyExpr e => expr_str e
  | PyVector v => vector_str v
  | PyReferenceFrame f => frame_name f
  | PyRigidBody b => body_name b
  | PyPathway p => pathway_str p
  | PyPinJoint j => joint_name j
  | PyObject _ s _ => s
  end.

(** ** Exceptions and the method monad *)

(** [TypeError param value required] is the error of the setters; its
    message interpolates the value, its type and the required class.
    [AttributeError] is a read of a missing attribute.  [External] is an
    error raised by code outside this module. *)
Inductive exn : Type :=
| TypeError (param : string) (value : pyval) (required : pyclass)
| AttributeError (attr : string)
| External (what : string).

Definition result (A : Type) : Type := (exn + A)%type.

(** A method body: from the attributes of [self] to an outcome and the
    attributes afterwards. *)
Definition M (S A : Type) : Type := S -> result A * S.

Definition ret {S A} (a : A) : M S A := fun s => (inr a, s).

Definition raise {S A} (e : exn) : M S A := fun s => (inl e, s).

Definition bind {S A B} (m : M S A) (k : A -> M S B) : M S B :=
  fun s => match m s with
           | (inr a, s') => k a s'
           | (inl e, s') => (inl e, s')
           end.

Definition gets {S A} (f : S -> A) : M S A := fun s => (inr (f s), s).

Definition modify {S} (f : S -> S) : M S unit := fun s => (inr tt, f s).

Definition lift {S A} (r : result A) : M S A := fun s => (r, s).

Notation "x <- m ;; k" := (bind m (fun x => k))
  (at level 61, m at next level, right associativity).
Notation "m ;; k" := (bind m (fun _ => k))
  (at level 61, right associativity).

(** Reading [self.<attr>] when the attribute may not have been set yet. *)
Definition read_attr {S} (name : string) (f : S -> option pyval) : M S pyval :=
  o <- gets f ;;
  match o with
  | Some v => ret v
  | None => raise (AttributeError name)
  end.

(** [cls(args)]: a fresh instance is created, [__init__] runs on it, and
    the instance is returned only when [__init__] returns. *)
Definition construct {S} (fresh : S) (init : M S unit) : result S :=
  match init fresh with
  | (inr _, self) => inr self
  | (inl e, _) => inl e
  end.

(** ** ActuatorBase *)

Definition ActuatorBase_init {S} : M S unit := ret tt.

(** ** ForceActuator *)

Record ForceActuator : Type := {
  _force : option pyval;
  _pathway : option pyval
}.

Definition ForceActuator_fresh : ForceActuator :=
  {| _force := None; _pathway := None |}.

Definition ForceActuator_force : M ForceActuator pyval :=
  read_attr "_force" _force.

Definition ForceActuator_force_setter (force : pyval) : M ForceActuator unit :=
  if negb (isinstance force cls_ExprType) then
    raise (TypeError "force" force cls_ExprType)
  else
    modify (fun self => {| _force := Some force; _pathway := _pathway self |}).

Definition ForceActuator_pathway : M ForceActuator pyval :=
  read_attr "_pathway" _pathway.

Definition ForceActuator_pathway_setter (pathway : pyval) : M ForceActuator unit :=
  if negb (isinstance pathway cls_PathwayBase) then
    raise (TypeError "pathway" pathway cls_PathwayBase)
  else
    modify (fun self => {| _force := _force self; _pathway := Some pathway |}).

Definition ForceActuator_init (force pathway : pyval) : M ForceActuator unit :=
  ForceActuator_force_setter force ;;
  ForceActuator_pathway_setter pathway ;;
  ActuatorBase_init.

Definition ForceActuator_new (force pathway : pyval) : result ForceActuator :=
  construct ForceActuator_fresh (ForceActuator_init force pathway).

(** An error of the engine, as this module sees it. *)
Definition external {A} (r : string + A) : result A :=
  match r with
  | inr a => inr a
  | inl msg => inl (External msg)
  end.

(** The method call [pathway.compute_loads(force)].  Only pathways have
    the method; what a pathway does with an argument that is not an
    expression is the pathway's own business and is reported as external. *)
Definition call_compute_loads (w : World) (pathway force : pyval)
  : result (list Load) :=
  match pathway with
  | PyPathway p =>
      match force with
      | PyExpr e => external (compute_loads p w e)
      | _ => inl (External "compute_loads: argument is not an expression")
      end
  | _ => inl (AttributeError "compute_loads")
  end.

Definition ForceActuator_to_loads (w : World) : M ForceActuator (list Load) :=
  pathway <- ForceActuator_pathway ;;
  force <- ForceActuator_force ;;
  lift (call_compute_loads w pathway force).

Definition ForceActuator_repr : M ForceActuator string :=
  force <- ForceActuator_force ;;
  pathway <- ForceActuator_pathway ;;
  ret ("ForceActuator(" ++ py_str force ++ ", " ++ py_str pathway ++ ")").

(** ** TorqueActuator *)

Record TorqueActuator : Type := {
  _torque : option pyval;
  _axis : option pyval;
  _target_frame : option pyval;
  _reaction_frame : option pyval
}.

Definition TorqueActuator_fresh : TorqueActuator :=
  {| _torque := None; _axis := None;
     _target_frame := None; _reaction_frame := None |}.

Definition TorqueActuator_torque : M TorqueActuator pyval :=
  read_attr "_torque" _torque.

Definition TorqueActuator_torque_setter (torque : pyval) : M TorqueActuator unit :=
  if negb (isinstance torque cls_ExprType) then
    raise (TypeError "torque" torque cls_ExprType)
  else
    modify (fun self =>
      {| _torque := Some torque; _axis := _axis self;
         _target_frame := _target_frame self;
         _reaction_frame := _reaction_frame self |}).

Definition TorqueActuator_axis : M TorqueActuator pyval :=
  read_attr "_axis" _axis.

Definition TorqueActuator_axis_setter (axis : pyval) : M TorqueActuator unit :=
  if negb (isinstance axis cls_Vector) then
    raise (TypeError "axis" axis cls_Vector)
  else
    modify (fun self =>
      {| _torque := _torque self; _axis := Some axis;
         _target_frame := _target_frame self;
         _reaction_frame := _reaction_frame self |}).

Definition TorqueActuator_target_frame : M TorqueActuator pyval :=
  read_attr "_target_frame" _target_frame.

(** In the two frame setters the parameter is rebound to the body's
    [frame] before it is stored. *)
Definition TorqueActuator_target_frame_setter (target_frame : pyval)
  : M TorqueActuator unit :=
  target_frame <-
    (if isinstance target_frame cls_RigidBody then
       match getattr target_frame "frame" with
       | Some f => ret f
       | None => raise (AttributeError "frame")
       end
     else if negb (isinstance target_frame cls_ReferenceFrame) then
       raise (TypeError "target_frame" target_frame cls_ReferenceFrame)
     else ret target_frame) ;;
  modify (fun self =>
    {| _torque := _torque self; _axis := _axis self;
       _target_frame := Some target_frame;
       _reaction_frame := _reaction_frame self |}).

Definition TorqueActuator_reaction_frame : M TorqueActuator pyval :=
  read_attr "_reaction_frame" _reaction_frame.

Definition TorqueActuator_reaction_frame_setter (reaction_frame : pyval)
  : M TorqueActuator unit :=
  reaction_frame <-
    (if isinstance reaction_frame cls_RigidBody then
       match getattr reaction_frame "frame" with
       | Some f => ret f
       | None => raise (AttributeError "frame")
       end
     else if negb (isinstance reaction_frame cls_ReferenceFrame)
             && negb (is_None reaction_frame) then
       raise (TypeError "reaction_frame" reaction_frame cls_ReferenceFrame)
     else ret reaction_frame) ;;
  modify (fun self =>
    {| _torque := _torque self; _axis := _axis self;
       _target_frame := _target_frame self;
       _reaction_frame := Some reaction_frame |}).

Definition TorqueActuator_init (torque axis target_frame reaction_frame : pyval)
  : M TorqueActuator unit :=
  TorqueActuator_torque_setter torque ;;
  TorqueActuator_axis_setter axis ;;
  TorqueActuator_target_frame_setter target_frame ;;
  TorqueActuator_reaction_frame_setter reaction_frame ;;
  ActuatorBase_init.

Definition TorqueActuator_new (torque axis target_frame reaction_frame : pyval)
  : result TorqueActuator :=
  construct TorqueActuator_fresh
    (TorqueActuator_init torque axis target_frame reaction_frame).

(** [reaction_frame] defaults to [None]. *)
Definition TorqueActuator_new3 (torque axis target_frame : pyval)
  : result TorqueActuator :=
  TorqueActuator_new torque axis target_frame PyNone.

Definition attr_or_raise (x : pyval) (name : string) : result pyval :=
  match getattr x name with
  | Some v => inr v
  | None => inl (AttributeError name)
  end.

Definition TorqueActuator_at_pin_joint (torque pin_joint : pyval)
  : result TorqueActuator :=
  if negb (isinstance pin_joint cls_PinJoint) then
    inl (TypeError "pin_joint" pin_joint cls_PinJoint)
  else
    match attr_or_raise pin_joint "joint_axis" with
    | inl e => inl e
    | inr axis =>
        match attr_or_raise pin_joint "parent_interframe" with
        | inl e => inl e
        | inr parent =>
            match attr_or_raise pin_joint "child_interframe" with
            | inl e => inl e
            | inr child => TorqueActuator_new torque axis parent child
            end
        end
    end.

(** The three engine operations [to_loads] applies to stored attributes.
    The product of an expression and a vector is the engine's: a vector,
    or the error it raises.  On operands outside the signature the
    engine's behaviour is its own; it is reported as an external error. *)
Definition py_mul (a b : pyval) : result pyval :=
  match a, b with
  | PyExpr e, PyVector v =>
      match scale e v with
      | inr m => inr (PyVector m)
      | inl msg => inl (External msg)
      end
  | _, _ => inl (External "unsupported operand types for *")
  end.

Definition py_neg (a : pyval) : result pyval :=
  match a with
  | PyExpr e => inr (PyExpr (expr_neg e))
  | _ => inl (External "bad operand type for unary -")
  end.

Definition py_Torque (frame vector : pyval) : result Load :=
  match frame, vector with
  | PyReferenceFrame f, PyVector v => inr (Torque f v)
  | _, _ => inl (External "Torque: not a frame and a vector")
  end.

Definition TorqueActuator_to_loads : M TorqueActuator (list Load) :=
  target_frame <- TorqueActuator_target_frame ;;
  torque <- TorqueActuator_torque ;;
  axis <- TorqueActuator_axis ;;
  moment <- lift (py_mul torque axis) ;;
  load <- lift (py_Torque target_frame moment) ;;
  let loads := [load] in
  reaction_frame <- TorqueActuator_reaction_frame ;;
  if negb (is_None reaction_frame) then
    reaction_frame <- TorqueActuator_reaction_frame ;;
    torque <- TorqueActuator_torque ;;
    negated <- lift (py_neg torque) ;;
    axis <- TorqueActuator_axis ;;
    moment <- lift (py_mul negated axis) ;;
    load <- lift (py_Torque reaction_frame moment) ;;
    ret (loads ++ [load])%list
  else
    ret loads.

Definition TorqueActuator_repr : M TorqueActuator string :=
  torque <- TorqueActuator_torque ;;
  axis <- TorqueActuator_axis ;;
  target_frame <- TorqueActuator_target_frame ;;
  let str :=
    "TorqueActuator(" ++ py_str torque ++ ", axis=" ++ py_str axis ++ ", "
    ++ "target_frame=" ++ py_str target_frame in
  reaction_frame <- TorqueActuator_reaction_frame ;;
  if negb (is_None reaction_frame) then
    reaction_frame <- TorqueActuator_reaction_frame ;;
    ret (str ++ ", reaction_frame=" ++ py_str reaction_frame ++ ")")
  else
    ret (str ++ ")").

End Actuators.

Arguments PathwayImpl E : clear implicits.

Notation "x <- m ;; k" := (bind m (fun x => k))
  (at level 61, m at next level, right associativity).
Notation "m ;; k" := (bind m (fun _ => k))
  (at level 61, right associativity).

(** ** Reassignment as a step on an existing actuator *)

Section Steps.

Context {E : Engine} {PI : PathwayImpl E}.

(** [actuator.<attr> = value] on an existing instance. *)
Inductive ForceActuator_assignment : Type :=
| assign_force (value : pyval)
| assign_pathway (value : pyval).

Definition ForceActuator_assign (a : ForceActuator_assignment)
  : M ForceActuator unit :=
  match a with
  | assign_force v => ForceActuator_force_setter v
  | assign_pathway v => ForceActuator_pathway_setter v
  end.

Inductive TorqueActuator_assignment : Type :=
| assign_torque (value : pyval)
| assign_axis (value : pyval)
| assign_target_frame (value : pyval)
| assign_reaction_frame (value : pyval).

Definition TorqueActuator_assign (a : TorqueActuator_assignment)
  : M TorqueActuator unit :=
  match a with
  | assign_torque v => TorqueActuator_torque_setter v
  | assign_axis v => TorqueActuator_axis_setter v
  | assign_target_frame v => TorqueActuator_target_frame_setter v
  | assign_reaction_frame v => TorqueActuator_reaction_frame_setter v
  end.

(** The actuators a client can hold: built by a constructor, then
    reassigned any number of times, whether or not an assignment raised. *)
Inductive ForceActuator_reachable : ForceActuator -> Prop :=
| force_reach_new force pathway self :
    ForceActuator_new force pathway = inr self ->
    ForceActuator_reachable self
| force_reach_assign a self :
    ForceActuator_reachable self ->
    ForceActuator_reachable (snd (ForceActuator_assign a self)).

Inductive TorqueActuator_reachable : TorqueActuator -> Prop :=
| torque_reach_new torque axis target_frame reaction_frame self :
    TorqueActuator_new torque axis target_frame reaction_frame = inr self ->
    TorqueActuator_reachable self
| torque_reach_at_pin_joint torque pin_joint self :
    TorqueActuator_at_pin_joint torque pin_joint = inr self ->
    TorqueActuator_reachable self
| torque_reach_assign a self :
    TorqueActuator_reachable self ->
    TorqueActuator_reachable (snd (TorqueActuator_assign a self)).

(** ** Vocabulary of the specification *)

Definition stored_as (o : option pyval) (c : pyclass) : bool :=
  match o with
  | Some v => isinstance v c
  | None => false
  end.

Definition stored_None (o : option pyval) : bool :=
  match o with
  | Some v => is_None v
  | None => false
  end.

(** A valid force actuator holds an expression and a pathway. *)
Definition ForceActuator_valid (self : ForceActuator) : bool :=
  stored_as (_force self) cls_ExprType
  && stored_as (_pathway self) cls_PathwayBase.

(** A valid torque actuator holds an expression, a vector, a frame, and a
    frame or [None]. *)
Definition TorqueActuator_valid (self : TorqueActuator) : bool :=
  stored_as (_torque self) cls_ExprType
  && stored_as (_axis self) cls_Vector
  && stored_as (_target_frame self) cls_ReferenceFrame
  && (stored_as (_reaction_frame self) cls_ReferenceFrame
      || stored_None (_reaction_frame self)).

(** What a frame parameter accepts: a frame or a rigid body. *)
Definition frame_like (x : pyval) : bool :=
  isinstance x cls_RigidBody || isinstance x cls_ReferenceFrame.

(** The frame a frame-like argument stands for. *)
Definition resolve_frame (x : pyval) : option ReferenceFrame :=
  match x with
  | PyReferenceFrame f => Some f
  | PyRigidBody b => Some (frame b)
  | _ => None
  end.

(** The first argument of a constructor, in parameter order, that its
    setter refuses. *)
Definition ForceActuator_first_invalid (force pathway : pyval) : option exn :=
  if negb (isinstance force cls_ExprType)
  then Some (TypeError "force" force cls_ExprType)
  else if negb (isinstance pathway cls_PathwayBase)
  then Some (TypeError "pathway" pathway cls_PathwayBase)
  else None.

Definition TorqueActuator_first_invalid
  (torque axis target_frame reaction_frame : pyval) : option exn :=
  if negb (isinstance torque cls_ExprType)
  then Some (TypeError "torque" torque cls_ExprType)
  else if negb (isinstance axis cls_Vector)
  then Some (TypeError "axis" axis cls_Vector)
  else if negb (frame_like target_frame)
  then Some (TypeError "target_frame" target_frame cls_ReferenceFrame)
  else if negb (frame_like reaction_frame || is_None reaction_frame)
  then Some (TypeError "reaction_frame" reaction_frame cls_ReferenceFrame)
  else None.

(** The rotational-joint capability read structurally: the object exposes
    the three attributes. *)
Definition exposes_joint_attributes (x : pyval) : bool :=
  hasattr x "joint_axis" && hasattr x "parent_interframe"
  && hasattr x "child_interframe".

(** The composition the specification equates [at_pin_joint] with. *)
Definition at_pin_joint_spec (torque : pyval) (joint : PinJoint)
  : result TorqueActuator :=
  TorqueActuator_new torque
    (PyVector (joint_axis joint))
    (PyReferenceFrame (parent_interframe joint))
    (PyReferenceFrame (child_interframe joint)).

(** The error an assignment is refused with, if it is refused. *)
Definition ForceActuator_refuses (a : ForceActuator_assignment) : option exn :=
  match a with
  | assign_force v =>
      if isinstance v cls_ExprType then None
      else Some (TypeError "force" v cls_ExprType)
  | assign_pathway v =>
      if isinstance v cls_PathwayBase then None
      else Some (TypeError "pathway" v cls_PathwayBase)
  end.

Definition TorqueActuator_refuses (a : TorqueActuator_assignment) : option exn :=
  match a with
  | assign_torque v =>
      if isinstance v cls_ExprType then None
      else Some (TypeError "torque" v cls_ExprType)
  | assign_axis v =>
      if isinstance v cls_Vector then None
      else Some (TypeError "axis" v cls_Vector)
  | assign_target_frame v =>
      if frame_like v then None
      else Some (TypeError "target_frame" v cls_ReferenceFrame)
  | assign_reaction_frame v =>
      if frame_like v || is_None v then None
      else Some (TypeError "reaction_frame" v cls_ReferenceFrame)
  end.

(** A method that leaves the attributes of [self] as they were. *)
Definition readonly {S A} (m : M S A) : Prop :=
  forall self, snd (m self) = self.



(** ** Attributes, read and written

    The properties of the two classes, by name: what reading one does,
    and what a successful assignment leaves in it. *)

Inductive ForceActuator_attribute : Type :=
| attr_force
| attr_pathway.

Inductive TorqueActuator_attribute : Type :=
| attr_torque
| attr_axis
| attr_target_frame
| attr_reaction_frame.

Definition ForceActuator_attribute_of (a : ForceActuator_assignment)
  : ForceActuator_attribute :=
  match a with
  | assign_force _ => attr_force
  | assign_pathway _ => attr_pathway
  end.

Definition TorqueActuator_attribute_of (a : TorqueActuator_assignment)
  : TorqueActuator_attribute :=
  match a with
  | assign_torque _ => attr_torque
  | assign_axis _ => attr_axis
  | assign_target_frame _ => attr_target_frame
  | assign_reaction_frame _ => attr_reaction_frame
  end.

(** [actuator.<attr>], through the property getter. *)
Definition ForceActuator_get (x : ForceActuator_attribute)
  : M ForceActuator pyval :=
  match x with
  | attr_force => ForceActuator_force
  | attr_pathway => ForceActuator_pathway
  end.

Definition TorqueActuator_get (x : TorqueActuator_attribute)
  : M TorqueActuator pyval :=
  match x with
  | attr_torque => TorqueActuator_torque
  | attr_axis => TorqueActuator_axis
  | attr_target_frame => TorqueActuator_target_frame
  | attr_reaction_frame => TorqueActuator_reaction_frame
  end.

(** What a frame parameter leaves behind: the frame of a body, and the
    value itself otherwise. *)
Definition stored_frame (x : pyval) : pyval :=
  match x with
  | PyRigidBody b => PyReferenceFrame (frame b)
  | _ => x
  end.

(** The value an accepted assignment is expected to leave. *)
Definition ForceActuator_assigned (a : ForceActuator_assignment) : pyval :=
  match a with
  | assign_force v => v
  | assign_pathway v => v
  end.

Definition TorqueActuator_assigned (a : TorqueActuator_assignment) : pyval :=
  match a with
  | assign_torque v => v
  | assign_axis v => v
  | assign_target_frame v => stored_frame v
  | assign_reaction_frame v => stored_frame v
  end.

(** The instance with one attribute replaced. *)
Definition ForceActuator_store (x : ForceActuator_attribute) (v : pyval)
  (self : ForceActuator) : ForceActuator :=
  match x with
  | attr_force => {| _force := Some v; _pathway := _pathway self |}
  | attr_pathway => {| _force := _force self; _pathway := Some v |}
  end.

Definition TorqueActuator_store (x : TorqueActuator_attribute) (v : pyval)
  (self : TorqueActuator) : TorqueActuator :=
  match x with
  | attr_torque =>
      {| _torque := Some v; _axis := _axis self;
         _target_frame := _target_frame self;
         _reaction_frame := _reaction_frame self |}
  | attr_axis =>
      {| _torque := _torque self; _axis := Some v;
         _target_frame := _target_frame self;
         _reaction_frame := _reaction_frame self |}
  | attr_target_frame =>
      {| _torque := _torque self; _axis := _axis self;
         _target_frame := Some v;
         _reaction_frame := _reaction_frame self |}
  | attr_reaction_frame =>
      {| _torque := _torque self; _axis := _axis self;
         _target_frame := _target_frame self;
         _reaction_frame := Some v |}
  end.

(** Several assignments, one after the other, whatever each one does. *)
Definition ForceActuator_assign_all (l : list ForceActuator_assignment)
  (self : ForceActuator) : ForceActuator :=
  fold_left (fun s a => snd (ForceActuator_assign a s)) l self.

Definition TorqueActuator_assign_all (l : list TorqueActuator_assignment)
  (self : TorqueActuator) : TorqueActuator :=
  fold_left (fun s a => snd (TorqueActuator_assign a s)) l self.

Definition is_Torque (l : Load) : bool :=
  match l with
  | Torque _ _ => true
  | Force _ _ => false
  end.

(** The outcome of [to_loads] that the attributes of a torque actuator
    determine: the engine's products, in the order the method forms
    them, the second one only when there is a reaction frame. *)
Definition torque_loads (e : Expr) (v : Vector) (tf : ReferenceFrame)
  (reaction : option ReferenceFrame) : result (list Load) :=
  match scale e v with
  | inl msg => inl (External msg)
  | inr m1 =>
      match reaction with
      | None => inr [Torque tf m1]
      | Some rf =>
          match scale (expr_neg e) v with
          | inl msg => inl (External msg)
          | inr m2 => inr [Torque tf m1; Torque rf m2]
          end
      end
  end.

(** The laws of the algebra at one magnitude and one axis: the magnitude
    has an additive inverse, the two products add up to the product by
    the sum, and zero times the axis is the zero vector. *)
Definition algebra_laws_at (e : Expr) (v : Vector) : Prop :=
  expr_add e (expr_neg e) = expr_zero
  /\ (forall m1 m2 : Vector,
        scale e v = inr m1 -> scale (expr_neg e) v = inr m2 ->
        scale (expr_add e (expr_neg e)) v = inr (vec_add m1 m2))
  /\ scale expr_zero v = inr vec_zero.

(** Text search, for statements about what a rendering mentions. *)
Fixpoint has_char (c : ascii) (s : string) : bool :=
  match s with
  | EmptyString => false
  | String d rest => Ascii.eqb c d || has_char c rest
  end.

Fixpoint contains (pat s : string) : bool :=
  String.prefix pat s
  || match s with
     | EmptyString => false
     | String _ rest => contains pat rest
     end.

Definition occurs (pat s : string) : Prop :=
  exists pre post, s = pre ++ pat ++ post.

End Steps.

(** ** A concrete engine

    Integer scalars, integer triples as vectors, frames and points known
    by their names, and a two-point pathway that pushes its ends apart
    along the line joining them. *)

Module Demo.

Local Open Scope Z_scope.

Definition vec : Type := (Z * Z * Z)%type.

Definition vadd (a b : vec) : vec :=
  let '(a1, a2, a3) := a in
  let '(b1, b2, b3) := b in
  (a1 + b1, a2 + b2, a3 + b3).

Definition vscale (k : Z) (a : vec) : vec :=
  let '(a1, a2, a3) := a in (k * a1, k * a2, k * a3).

Definition show (k : Z) : string := NilZero.string_of_int (Z.to_int k).

Definition vshow (a : vec) : string :=
  let '(a1, a2, a3) := a in
  ("(" ++ show a1 ++ ", " ++ show a2 ++ ", " ++ show a3 ++ ")")%string.

#[global] Instance engine : Engine := {|
  Expr := Z;
  Vector := vec;
  ReferenceFrame := string;
  Point := string;
  Pathway := string * string;
  World := string -> vec;
  expr_zero := 0;
  expr_add := Z.add;
  expr_neg := Z.opp;
  vec_zero := (0, 0, 0);
  vec_add := vadd;
  scale := fun k a => inr (vscale k a);
  expr_str := show;
  vector_str := vshow;
  frame_name := fun f => f;
  pathway_str := fun p => ("LinearPathway(" ++ fst p ++ ", " ++ snd p ++ ")")%string
|}.

(** The pathway fails when its two ends are the same point. *)
#[global] Instance pathways : PathwayImpl engine :=
  fun p w force =>
    if String.eqb (fst p) (snd p) then inl "coincident attachment points"%string
    else
      let d := vadd (w (snd p)) (vscale (-1) (w (fst p))) in
      inr [Force (fst p) (vscale (- force) d); Force (snd p) (vscale force d)].

Definition world (q : Z) : string -> vec :=
  fun p => if String.eqb p "pB" then (q, 0, 0) else (0, 0, 0).

Definition N : string := "N"%string.
Definition A : string := "A"%string.
Definition z_axis : vec := (0, 0, 1).

Definition parent : RigidBody := {| body_name := "parent"; frame := N |}.
Definition child : RigidBody := {| body_name := "child"; frame := A |}.

Definition pin : PinJoint :=
  {| joint_name := "pin"; joint_axis := z_axis;
     parent_interframe := N; child_interframe := A |}.

Definition frame_N : pyval := PyReferenceFrame N.
Definition frame_A : pyval := PyReferenceFrame A.
Definition body_parent : pyval := PyRigidBody parent.
Definition body_child : pyval := PyRigidBody child.
Definition T : pyval := PyExpr 7.
Definition axis_z : pyval := PyVector z_axis.
Definition spring_force : pyval := PyExpr (-6).
Definition linear_pathway : pyval := PyPathway ("pA"%string, "pB"%string).

(** An instance of another joint class with the same three attributes. *)
Definition prismatic : pyval :=
  PyObject "PrismaticJoint" "PrismaticJoint: slider  parent: parent  child: child"
    [("joint_axis"%string, PyVector z_axis);
     ("parent_interframe"%string, PyReferenceFrame N);
     ("child_interframe"%string, PyReferenceFrame A)].

(** A plain number where a frame is expected. *)
Definition five : pyval := PyObject "int" "5" [].

Definition a_torque_actuator : TorqueActuator :=
  {| _torque := Some (PyExpr 7); _axis := Some (PyVector z_axis);
     _target_frame := Some (PyReferenceFrame N);
     _reaction_frame := Some (PyReferenceFrame A) |}.

Definition a_one_sided_actuator : TorqueActuator :=
  {| _torque := Some (PyExpr 7); _axis := Some (PyVector z_axis);
     _target_frame := Some (PyReferenceFrame N);
     _reaction_frame := Some PyNone |}.

Definition a_force_actuator : ForceActuator :=
  {| _force := Some (PyExpr (-6)); _pathway := Some (PyPathway ("pA"%string, "pB"%string)) |}.

(** An actuator with a history: two accepted assignments and a refused
    one. *)
Definition a_reassigned_actuator : TorqueActuator :=
  TorqueActuator_assign_all
    [assign_torque spring_force; assign_target_frame body_child;
     assign_reaction_frame five]
    a_torque_actuator.

Definition a_reassigned_force_actuator : ForceActuator :=
  ForceActuator_assign_all [assign_force T; assign_pathway five] a_force_actuator.

End Demo.

(** ** An engine with sympy's awkward magnitudes

    Two kinds of [Expr] instance that the setters accept and the algebra
    treats unlike a finite scalar: the extended reals, where [oo * 0] and
    [oo + (-oo)] are [nan], and quaternions, whose product with a vector
    raises. *)

Module Extended.

Local Open Scope Z_scope.

Inductive xreal : Type :=
| Fin (z : Z)
| PosInf
| NegInf
| NaN.

Inductive scalar : Type :=
| Real (x : xreal)
| Quaternion (a b c d : Z).

Definition xvec : Type := (xreal * xreal * xreal)%type.

Definition xneg (x : xreal) : xreal :=
  match x with
  | Fin z => Fin (- z)
  | PosInf => NegInf
  | NegInf => PosInf
  | NaN => NaN
  end.

Definition xadd (x y : xreal) : xreal :=
  match x, y with
  | NaN, _ | _, NaN => NaN
  | Fin a, Fin b => Fin (a + b)
  | PosInf, NegInf | NegInf, PosInf => NaN
  | PosInf, _ | _, PosInf => PosInf
  | NegInf, _ | _, NegInf => NegInf
  end.

(** An infinity times a finite number: by the sign, and [nan] at zero. *)
Definition inf_times (positive : bool) (z : Z) : xreal :=
  match z ?= 0 with
  | Eq => NaN
  | Gt => if positive then PosInf else NegInf
  | Lt => if positive then NegInf else PosInf
  end.

Definition xmul (x y : xreal) : xreal :=
  match x, y with
  | NaN, _ | _, NaN => NaN
  | Fin a, Fin b => Fin (a * b)
  | PosInf, Fin b | Fin b, PosInf => inf_times true b
  | NegInf, Fin b | Fin b, NegInf => inf_times false b
  | PosInf, PosInf | NegInf, NegInf => PosInf
  | PosInf, NegInf | NegInf, PosInf => NegInf
  end.

Definition sneg (s : scalar) : scalar :=
  match s with
  | Real x => Real (xneg x)
  | Quaternion a b c d => Quaternion (- a) (- b) (- c) (- d)
  end.

Definition sadd (s t : scalar) : scalar :=
  match s, t with
  | Real x, Real y => Real (xadd x y)
  | Quaternion a b c d, Quaternion a' b' c' d' =>
      Quaternion (a + a') (b + b') (c + c') (d + d')
  | Quaternion a b c d, Real (Fin z) | Real (Fin z), Quaternion a b c d =>
      Quaternion (a + z) b c d
  | _, _ => Real NaN
  end.

Definition xvadd (u w : xvec) : xvec :=
  let '(u1, u2, u3) := u in
  let '(w1, w2, w3) := w in
  (xadd u1 w1, xadd u2 w2, xadd u3 w3).

(** A quaternion refuses a vector operand; a real scales each measure
    number. *)
Definition xscale (s : scalar) (u : xvec) : string + xvec :=
  match s with
  | Real x => let '(u1, u2, u3) := u in inr (xmul x u1, xmul x u2, xmul x u3)
  | Quaternion _ _ _ _ => inl "SympifyError"%string
  end.

Definition xshow (x : xreal) : string :=
  match x with
  | Fin z => Demo.show z
  | PosInf => "oo"
  | NegInf => "-oo"
  | NaN => "nan"
  end.

Definition sshow (s : scalar) : string :=
  match s with
  | Real x => xshow x
  | Quaternion a b c d =>
      (Demo.show a ++ " + " ++ Demo.show b ++ "*i + " ++ Demo.show c ++ "*j + "
       ++ Demo.show d ++ "*k")%string
  end.

Definition xvshow (u : xvec) : string :=
  let '(u1, u2, u3) := u in
  ("(" ++ xshow u1 ++ ", " ++ xshow u2 ++ ", " ++ xshow u3 ++ ")")%string.

Definition engine : Engine := {|
  Expr := scalar;
  Vector := xvec;
  ReferenceFrame := string;
  Point := string;
  Pathway := string * string;
  World := unit;
  expr_zero := Real (Fin 0);
  expr_add := sadd;
  expr_neg := sneg;
  vec_zero := (Fin 0, Fin 0, Fin 0);
  vec_add := xvadd;
  scale := xscale;
  expr_str := sshow;
  vector_str := xvshow;
  frame_name := fun f => f;
  pathway_str := fun p => ("LinearPathway(" ++ fst p ++ ", " ++ snd p ++ ")")%string
|}.

Definition q : @pyval engine := @PyExpr engine (Quaternion 1 2 3 4).
Definition oo : @pyval engine := @PyExpr engine (Real PosInf).
Definition z_axis : xvec := (Fin 0, Fin 0, Fin 1).
Definition axis_z : @pyval engine := @PyVector engine z_axis.
Definition frame_N : @pyval engine := @PyReferenceFrame engine "N"%string.
Definition frame_A : @pyval engine := @PyReferenceFrame engine "A"%string.

Definition quaternion_actuator : @TorqueActuator engine :=
  {| _torque := Some q; _axis := Some axis_z;
     _target_frame := Some frame_N; _reaction_frame := Some frame_A |}.

Definition quaternion_one_sided : @TorqueActuator engine :=
  {| _torque := Some q; _axis := Some axis_z;
     _target_frame := Some frame_N; _reaction_frame := Some (@PyNone engine) |}.

Definition infinite_actuator : @TorqueActuator engine :=
  {| _torque := Some oo; _axis := Some axis_z;
     _target_frame := Some frame_N; _reaction_frame := Some frame_A |}.

(** What [to_loads] returns for the infinite torque about [z]. *)
Definition infinite_loads : list (@Load engine) :=
  [@Torque engine "N"%string (NaN, NaN, PosInf);
   @Torque engine "A"%string (NaN, NaN, NegInf)].

Definition sympify_error : @exn engine := @External engine "SympifyError"%string.

End Extended.

(** * Properties *)

Section Properties.

Context {E : Engine} {PI : PathwayImpl E}.

(** ** Shape of the values a class test accepts *)

Lemma isinstance_ExprType_inv (x : pyval) :
  isinstance x cls_ExprType = true -> exists e, x = PyExpr e.
Proof. destruct x; simpl; try discriminate. intros _. now exists e. Qed.

Lemma isinstance_PathwayBase_inv (x : pyval) :
  isinstance x cls_PathwayBase = true -> exists p, x = PyPathway p.
Proof. destruct x; simpl; try discriminate. intros _. now exists p. Qed.

Lemma isinstance_Vector_inv (x : pyval) :
  isinstance x cls_Vector = true -> exists v, x = PyVector v.
Proof. destruct x; simpl; try discriminate. intros _. now exists v. Qed.

Lemma isinstance_ReferenceFrame_inv (x : pyval) :
  isinstance x cls_ReferenceFrame = true -> exists f, x = PyReferenceFrame f.
Proof. destruct x; simpl; try discriminate. intros _. now exists f. Qed.

Lemma isinstance_PinJoint_inv (x : pyval) :
  isinstance x cls_PinJoint = true -> exists j, x = PyPinJoint j.
Proof. destruct x; simpl; try discriminate. intros _. now exists j. Qed.

Lemma frame_like_resolves (x : pyval) :
  frame_like x = true -> exists f, resolve_frame x = Some f.
Proof.
  destruct x; simpl; try discriminate; intros _; eexists; reflexivity.
Qed.

Lemma stored_as_inv (o : option pyval) (c : pyclass) :
  stored_as o c = true -> exists v, o = Some v /\ isinstance v c = true.
Proof.
  destruct o as [v|]; simpl; [|discriminate]. intros H. now exists v.
Qed.

(** ** What each setter does *)

Lemma force_setter_accepts (e : Expr) (self : ForceActuator) :
  ForceActuator_force_setter (PyExpr e) self
  = (inr tt, {| _force := Some (PyExpr e); _pathway := _pathway self |}).
Proof. reflexivity. Qed.

Lemma pathway_setter_accepts (p : Pathway) (self : ForceActuator) :
  ForceActuator_pathway_setter (PyPathway p) self
  = (inr tt, {| _force := _force self; _pathway := Some (PyPathway p) |}).
Proof. reflexivity. Qed.

Lemma torque_setter_accepts (e : Expr) (self : TorqueActuator) :
  TorqueActuator_torque_setter (PyExpr e) self
  = (inr tt, {| _torque := Some (PyExpr e); _axis := _axis self;
                _target_frame := _target_frame self;
                _reaction_frame := _reaction_frame self |}).
Proof. reflexivity. Qed.

Lemma axis_setter_accepts (v : Vector) (self : TorqueActuator) :
  TorqueActuator_axis_setter (PyVector v) self
  = (inr tt, {| _torque := _torque self; _axis := Some (PyVector v);
                _target_frame := _target_frame self;
                _reaction_frame := _reaction_frame self |}).
Proof. reflexivity. Qed.

Lemma target_frame_setter_accepts (x : pyval) (f : ReferenceFrame)
  (self : TorqueActuator) :
  resolve_frame x = Some f ->
  TorqueActuator_target_frame_setter x self
  = (inr tt, {| _torque := _torque self; _axis := _axis self;
                _target_frame := Some (PyReferenceFrame f);
                _reaction_frame := _reaction_frame self |}).
Proof.
  destruct x; simpl; try discriminate; intros [= <-]; reflexivity.
Qed.

Lemma reaction_frame_setter_accepts (x : pyval) (f : ReferenceFrame)
  (self : TorqueActuator) :
  resolve_frame x = Some f ->
  TorqueActuator_reaction_frame_setter x self
  = (inr tt, {| _torque := _torque self; _axis := _axis self;
                _target_frame := _target_frame self;
                _reaction_frame := Some (PyReferenceFrame f) |}).
Proof.
  destruct x; simpl; try discriminate; intros [= <-]; reflexivity.
Qed.

Lemma reaction_frame_setter_None (self : TorqueActuator) :
  TorqueActuator_reaction_frame_setter PyNone self
  = (inr tt, {| _torque := _torque self; _axis := _axis self;
                _target_frame := _target_frame self;
                _reaction_frame := Some PyNone |}).
Proof. reflexivity. Qed.

(** A setter that raises has not touched [self]. *)
Lemma ForceActuator_assign_raises_same (a : ForceActuator_assignment)
  (self : ForceActuator) (e : exn) :
  fst (ForceActuator_assign a self) = inl e ->
  snd (ForceActuator_assign a self) = self.
Proof.
  destruct a as [v|v]; destruct v; simpl; intros H;
    solve [reflexivity | discriminate H].
Qed.

Lemma TorqueActuator_assign_raises_same (a : TorqueActuator_assignment)
  (self : TorqueActuator) (e : exn) :
  fst (TorqueActuator_assign a self) = inl e ->
  snd (TorqueActuator_assign a self) = self.
Proof.
  destruct a as [v|v|v|v]; destruct v; simpl; intros H;
    solve [reflexivity | discriminate H].
Qed.

(** ** Constructors *)

Lemma ForceActuator_new_accepts (e : Expr) (p : Pathway) :
  ForceActuator_new (PyExpr e) (PyPathway p)
  = inr {| _force := Some (PyExpr e); _pathway := Some (PyPathway p) |}.
Proof. reflexivity. Qed.

Lemma TorqueActuator_new_accepts (e : Expr) (v : Vector) (target reaction : pyval)
  (tf rf : ReferenceFrame) :
  resolve_frame target = Some tf ->
  resolve_frame reaction = Some rf ->
  TorqueActuator_new (PyExpr e) (PyVector v) target reaction
  = inr {| _torque := Some (PyExpr e); _axis := Some (PyVector v);
           _target_frame := Some (PyReferenceFrame tf);
           _reaction_frame := Some (PyReferenceFrame rf) |}.
Proof.
  intros Ht Hr. unfold TorqueActuator_new, construct, TorqueActuator_init, bind.
  rewrite torque_setter_accepts, axis_setter_accepts.
  rewrite (target_frame_setter_accepts _ _ _ Ht).
  rewrite (reaction_frame_setter_accepts _ _ _ Hr). reflexivity.
Qed.

Lemma TorqueActuator_new_accepts_None (e : Expr) (v : Vector) (target : pyval)
  (tf : ReferenceFrame) :
  resolve_frame target = Some tf ->
  TorqueActuator_new (PyExpr e) (PyVector v) target PyNone
  = inr {| _torque := Some (PyExpr e); _axis := Some (PyVector v);
           _target_frame := Some (PyReferenceFrame tf);
           _reaction_frame := Some PyNone |}.
Proof.
  intros Ht. unfold TorqueActuator_new, construct, TorqueActuator_init, bind.
  rewrite torque_setter_accepts, axis_setter_accepts.
  rewrite (target_frame_setter_accepts _ _ _ Ht).
  rewrite reaction_frame_setter_None. reflexivity.
Qed.

(** ** [to_loads] on the stored attributes *)

Lemma ForceActuator_to_loads_stored (w : World) (self : ForceActuator)
  (force pathway : pyval) :
  _force self = Some force ->
  _pathway self = Some pathway ->
  ForceActuator_to_loads w self = (call_compute_loads w pathway force, self).
Proof.
  destruct self as [f p]; simpl. intros -> ->. reflexivity.
Qed.

(** [to_loads] on a valid torque actuator: the products the engine
    gives, or the error of the first one that raises. *)
Lemma TorqueActuator_to_loads_run (self : TorqueActuator) (e : Expr) (v : Vector)
  (tf : ReferenceFrame) (reaction : option ReferenceFrame) :
  _torque self = Some (PyExpr e) ->
  _axis self = Some (PyVector v) ->
  _target_frame self = Some (PyReferenceFrame tf) ->
  _reaction_frame self
  = Some (match reaction with
          | Some rf => PyReferenceFrame rf
          | None => PyNone
          end) ->
  TorqueActuator_to_loads self = (torque_loads e v tf reaction, self).
Proof.
  destruct self as [t a f r]; simpl. intros -> -> -> ->.
  unfold TorqueActuator_to_loads, TorqueActuator_target_frame,
    TorqueActuator_torque, TorqueActuator_axis, TorqueActuator_reaction_frame,
    read_attr, bind, gets, lift, ret, torque_loads, py_mul.
  simpl. destruct (scale e v) as [msg|m1]; simpl; [reflexivity|].
  destruct reaction as [rf|]; simpl; [|reflexivity].
  destruct (scale (expr_neg e) v) as [msg|m2]; reflexivity.
Qed.

Lemma TorqueActuator_to_loads_two (self : TorqueActuator) (e : Expr) (v : Vector)
  (tf rf : ReferenceFrame) (m1 m2 : Vector) :
  _torque self = Some (PyExpr e) ->
  _axis self = Some (PyVector v) ->
  _target_frame self = Some (PyReferenceFrame tf) ->
  _reaction_frame self = Some (PyReferenceFrame rf) ->
  scale e v = inr m1 ->
  scale (expr_neg e) v = inr m2 ->
  TorqueActuator_to_loads self = (inr [Torque tf m1; Torque rf m2], self).
Proof.
  intros Ht Ha Hf Hr H1 H2.
  rewrite (TorqueActuator_to_loads_run self e v tf (Some rf) Ht Ha Hf Hr).
  unfold torque_loads. now rewrite H1, H2.
Qed.

Lemma TorqueActuator_to_loads_one (self : TorqueActuator) (e : Expr) (v : Vector)
  (tf : ReferenceFrame) (m1 : Vector) :
  _torque self = Some (PyExpr e) ->
  _axis self = Some (PyVector v) ->
  _target_frame self = Some (PyReferenceFrame tf) ->
  _reaction_frame self = Some PyNone ->
  scale e v = inr m1 ->
  TorqueActuator_to_loads self = (inr [Torque tf m1], self).
Proof.
  intros Ht Ha Hf Hr H1.
  rewrite (TorqueActuator_to_loads_run self e v tf None Ht Ha Hf Hr).
  unfold torque_loads. now rewrite H1.
Qed.

(** When the first product raises, so does [to_loads], with or without
    a reaction frame. *)
Lemma TorqueActuator_to_loads_raises (self : TorqueActuator) (e : Expr)
  (v : Vector) (tf : ReferenceFrame) (reaction : option ReferenceFrame)
  (msg : string) :
  _torque self = Some (PyExpr e) ->
  _axis self = Some (PyVector v) ->
  _target_frame self = Some (PyReferenceFrame tf) ->
  _reaction_frame self
  = Some (match reaction with
          | Some rf => PyReferenceFrame rf
          | None => PyNone
          end) ->
  scale e v = inl msg ->
  TorqueActuator_to_loads self = (inl (External msg), self).
Proof.
  intros Ht Ha Hf Hr H1.
  rewrite (TorqueActuator_to_loads_run self e v tf reaction Ht Ha Hf Hr).
  unfold torque_loads. now rewrite H1.
Qed.

(** When the product by the negated torque raises, so does [to_loads] on a
    two-sided actuator. *)
Lemma TorqueActuator_to_loads_raises_second (self : TorqueActuator) (e : Expr)
  (v : Vector) (tf rf : ReferenceFrame) (m1 : Vector) (msg : string) :
  _torque self = Some (PyExpr e) ->
  _axis self = Some (PyVector v) ->
  _target_frame self = Some (PyReferenceFrame tf) ->
  _reaction_frame self = Some (PyReferenceFrame rf) ->
  scale e v = inr m1 ->
  scale (expr_neg e) v = inl msg ->
  TorqueActuator_to_loads self = (inl (External msg), self).
Proof.
  intros Ht Ha Hf Hr H1 H2.
  rewrite (TorqueActuator_to_loads_run self e v tf (Some rf) Ht Ha Hf Hr).
  unfold torque_loads. now rewrite H1, H2.
Qed.

(** What the outcome can be. *)
Lemma torque_loads_returns (e : Expr) (v : Vector) (tf : ReferenceFrame)
  (reaction : option ReferenceFrame) (loads : list Load) :
  torque_loads e v tf reaction = inr loads ->
  exists m1,
    scale e v = inr m1
    /\ match reaction with
       | None => loads = [Torque tf m1]
       | Some rf =>
           exists m2, scale (expr_neg e) v = inr m2
                      /\ loads = [Torque tf m1; Torque rf m2]
       end.
Proof.
  unfold torque_loads. destruct (scale e v) as [msg|m1]; [discriminate|].
  destruct reaction as [rf|].
  - destruct (scale (expr_neg e) v) as [msg|m2]; [discriminate|].
    intros [= <-]. exists m1. split; [reflexivity|]. now exists m2.
  - intros [= <-]. now exists m1.
Qed.

Lemma torque_loads_raises (e : Expr) (v : Vector) (tf : ReferenceFrame)
  (reaction : option ReferenceFrame) (err : exn) :
  torque_loads e v tf reaction = inl err ->
  exists msg,
    err = External msg
    /\ (scale e v = inl msg \/ scale (expr_neg e) v = inl msg).
Proof.
  unfold torque_loads. destruct (scale e v) as [msg|m1].
  - intros [= <-]. exists msg. now split; [|left].
  - destruct reaction as [rf|]; [|discriminate].
    destruct (scale (expr_neg e) v) as [msg|m2]; [|discriminate].
    intros [= <-]. exists msg. now split; [|right].
Qed.

(** An equal and opposite pair cancels, from the laws of the algebra at
    that magnitude and axis. *)
Lemma opposite_moments_cancel (e : Expr) (v m1 m2 : Vector) :
  algebra_laws_at e v ->
  scale e v = inr m1 ->
  scale (expr_neg e) v = inr m2 ->
  vec_add m1 m2 = vec_zero.
Proof.
  intros (Hneg & Hadd & Hzero) H1 H2.
  specialize (Hadd m1 m2 H1 H2). rewrite Hneg, Hzero in Hadd.
  now injection Hadd as <-.
Qed.

Lemma EngineLaws_at {L : EngineLaws E} (e : Expr) (v : Vector) :
  algebra_laws_at e v.
Proof.
  split; [apply expr_add_neg_r|]. split; [|apply scale_zero_l].
  intros m1 m2 H1 H2. now apply scale_add_l.
Qed.

(** ** Validity is an invariant *)

Lemma ForceActuator_new_valid (force pathway : pyval) (self : ForceActuator) :
  ForceActuator_new force pathway = inr self ->
  ForceActuator_valid self = true.
Proof.
  unfold ForceActuator_new, construct, ForceActuator_init, bind.
  destruct force; simpl; try discriminate.
  destruct pathway; simpl; try discriminate.
  intros [= <-]. reflexivity.
Qed.

Lemma TorqueActuator_new_valid (torque axis target_frame reaction_frame : pyval)
  (self : TorqueActuator) :
  TorqueActuator_new torque axis target_frame reaction_frame = inr self ->
  TorqueActuator_valid self = true.
Proof.
  unfold TorqueActuator_new, construct, TorqueActuator_init, bind.
  destruct torque; simpl; try discriminate.
  destruct axis; simpl; try discriminate.
  destruct target_frame; simpl; try discriminate;
    destruct reaction_frame; simpl; try discriminate;
    intros [= <-]; reflexivity.
Qed.

Lemma at_pin_joint_unfold (torque : pyval) (joint : PinJoint) :
  TorqueActuator_at_pin_joint torque (PyPinJoint joint)
  = TorqueActuator_new torque
      (PyVector (joint_axis joint))
      (PyReferenceFrame (parent_interframe joint))
      (PyReferenceFrame (child_interframe joint)).
Proof. reflexivity. Qed.

Lemma at_pin_joint_rejects (torque x : pyval) :
  isinstance x cls_PinJoint = false ->
  TorqueActuator_at_pin_joint torque x = inl (TypeError "pin_joint" x cls_PinJoint).
Proof.
  intros H. unfold TorqueActuator_at_pin_joint. rewrite H. reflexivity.
Qed.

Lemma at_pin_joint_valid (torque pin_joint : pyval) (self : TorqueActuator) :
  TorqueActuator_at_pin_joint torque pin_joint = inr self ->
  TorqueActuator_valid self = true.
Proof.
  destruct (isinstance pin_joint cls_PinJoint) eqn:Hj.
  - destruct (isinstance_PinJoint_inv _ Hj) as [j ->].
    rewrite at_pin_joint_unfold. apply TorqueActuator_new_valid.
  - rewrite (at_pin_joint_rejects _ _ Hj). discriminate.
Qed.

Lemma ForceActuator_assign_valid (a : ForceActuator_assignment)
  (self : ForceActuator) :
  ForceActuator_valid self = true ->
  ForceActuator_valid (snd (ForceActuator_assign a self)) = true.
Proof.
  destruct self as [f p]. unfold ForceActuator_valid. simpl.
  intros H. apply andb_true_iff in H. destruct H as [Hf Hp].
  destruct a as [v|v]; destruct v; simpl; rewrite ?Hf, ?Hp; reflexivity.
Qed.

Lemma TorqueActuator_assign_valid (a : TorqueActuator_assignment)
  (self : TorqueActuator) :
  TorqueActuator_valid self = true ->
  TorqueActuator_valid (snd (TorqueActuator_assign a self)) = true.
Proof.
  destruct self as [t x f r]. unfold TorqueActuator_valid. simpl.
  intros H. repeat (apply andb_true_iff in H; destruct H as [H ?]).
  destruct a as [v|v|v|v]; destruct v; simpl;
    repeat match goal with
           | K : _ = true |- _ => rewrite K; clear K
           end; reflexivity.
Qed.

Lemma ForceActuator_reachable_valid (self : ForceActuator) :
  ForceActuator_reachable self -> ForceActuator_valid self = true.
Proof.
  induction 1 as [force pathway self Hnew | a self _ IH].
  - exact (ForceActuator_new_valid _ _ _ Hnew).
  - exact (ForceActuator_assign_valid a self IH).
Qed.

Lemma TorqueActuator_reachable_valid (self : TorqueActuator) :
  TorqueActuator_reachable self -> TorqueActuator_valid self = true.
Proof.
  induction 1 as [t x f r self Hnew | t j self Hpin | a self _ IH].
  - exact (TorqueActuator_new_valid _ _ _ _ _ Hnew).
  - exact (at_pin_joint_valid _ _ _ Hpin).
  - exact (TorqueActuator_assign_valid a self IH).
Qed.

(** The attributes of a valid actuator, with their payloads. *)
Lemma ForceActuator_valid_inv (self : ForceActuator) :
  ForceActuator_valid self = true ->
  exists e p, _force self = Some (PyExpr e) /\ _pathway self = Some (PyPathway p).
Proof.
  unfold ForceActuator_valid. intros H.
  apply andb_true_iff in H. destruct H as [Hf Hp].
  apply stored_as_inv in Hf. destruct Hf as (f & Hf & Kf).
  apply stored_as_inv in Hp. destruct Hp as (p & Hp & Kp).
  apply isinstance_ExprType_inv in Kf. destruct Kf as [e ->].
  apply isinstance_PathwayBase_inv in Kp. destruct Kp as [q ->].
  now exists e, q.
Qed.

Lemma TorqueActuator_valid_inv (self : TorqueActuator) :
  TorqueActuator_valid self = true ->
  exists e v tf,
    _torque self = Some (PyExpr e) /\ _axis self = Some (PyVector v)
    /\ _target_frame self = Some (PyReferenceFrame tf)
    /\ (_reaction_frame self = Some PyNone
        \/ exists rf, _reaction_frame self = Some (PyReferenceFrame rf)).
Proof.
  unfold TorqueActuator_valid. intros H.
  apply andb_true_iff in H. destruct H as [H Hr].
  apply andb_true_iff in H. destruct H as [H Hf].
  apply andb_true_iff in H. destruct H as [Ht Ha].
  apply stored_as_inv in Ht. destruct Ht as (t & Ht & Kt).
  apply stored_as_inv in Ha. destruct Ha as (a & Ha & Ka).
  apply stored_as_inv in Hf. destruct Hf as (f & Hf & Kf).
  apply isinstance_ExprType_inv in Kt. destruct Kt as [e ->].
  apply isinstance_Vector_inv in Ka. destruct Ka as [v ->].
  apply isinstance_ReferenceFrame_inv in Kf. destruct Kf as [tf ->].
  exists e, v, tf. repeat split; trivial.
  destruct (_reaction_frame self) as [r|]; simpl in Hr; [|discriminate].
  destruct r; simpl in Hr; try discriminate.
  - now left.
  - right. now exists f.
Qed.

(** [to_loads] on a valid torque actuator, from its attributes. *)
Lemma TorqueActuator_valid_run (self : TorqueActuator) :
  TorqueActuator_valid self = true ->
  exists e v tf reaction,
    _torque self = Some (PyExpr e) /\ _axis self = Some (PyVector v)
    /\ _target_frame self = Some (PyReferenceFrame tf)
    /\ _reaction_frame self
       = Some (match reaction with
               | Some rf => PyReferenceFrame rf
               | None => PyNone
               end)
    /\ TorqueActuator_to_loads self = (torque_loads e v tf reaction, self).
Proof.
  intros Hv.
  destruct (TorqueActuator_valid_inv _ Hv) as (e & v & tf & Ht & Ha & Hf & Hr).
  assert (Hopt : exists reaction : option ReferenceFrame,
             _reaction_frame self
             = Some (match reaction with
                     | Some rf => PyReferenceFrame rf
                     | None => PyNone
                     end)).
  { destruct Hr as [Hr | [rf Hr]]; [now exists None | now exists (Some rf)]. }
  destruct Hopt as [reaction Hopt].
  exists e, v, tf, reaction. do 4 (split; [assumption|]).
  now apply TorqueActuator_to_loads_run.
Qed.

End Properties.

(** ** Methods that only read *)

Section ReadOnly.

Context {E : Engine} {PI : PathwayImpl E}.

Lemma readonly_ret {S A} (a : A) : readonly (@ret E S A a).
Proof. intros self. reflexivity. Qed.

Lemma readonly_raise {S A} (e : exn) : readonly (@raise E S A e).
Proof. intros self. reflexivity. Qed.

Lemma readonly_gets {S A} (f : S -> A) : readonly (gets f).
Proof. intros self. reflexivity. Qed.

Lemma readonly_lift {S A} (r : result A) : readonly (@lift E S A r).
Proof. intros self. reflexivity. Qed.

Lemma readonly_bind {S A B} (m : M S A) (k : A -> M S B) :
  readonly m -> (forall a, readonly (k a)) -> readonly (bind m k).
Proof.
  intros Hm Hk self. unfold bind.
  specialize (Hm self). destruct (m self) as [[e|a] s']; simpl in Hm; subst s'.
  - reflexivity.
  - apply Hk.
Qed.

Lemma readonly_read_attr {S} (name : string) (f : S -> option pyval) :
  readonly (read_attr name f).
Proof.
  unfold read_attr. apply readonly_bind; [apply readonly_gets|].
  intros [v|]; [apply readonly_ret | apply readonly_raise].
Qed.

Lemma readonly_if {S A} (b : bool) (m1 m2 : M S A) :
  readonly m1 -> readonly m2 -> readonly (if b then m1 else m2).
Proof. destruct b; trivial. Qed.

Create HintDb readonly.
#[local] Hint Resolve readonly_ret readonly_raise readonly_gets readonly_lift
  readonly_read_attr : readonly.

Ltac prove_readonly :=
  repeat first
    [ apply readonly_bind; [solve [auto with readonly] | intros]
    | apply readonly_if
    | solve [auto with readonly] ].



Lemma TorqueActuator_repr_readonly : readonly TorqueActuator_repr.
Proof.
  unfold TorqueActuator_repr, TorqueActuator_target_frame,
    TorqueActuator_torque, TorqueActuator_axis, TorqueActuator_reaction_frame.
  prove_readonly.
Qed.


End ReadOnly.

(** ** Text *)

Lemma string_append_assoc (a b c : string) : (a ++ b) ++ c = a ++ b ++ c.
Proof.
  induction a as [|x a IH]; simpl; [reflexivity|]. now rewrite IH.
Qed.

Lemma prefix_append (pat post : string) : String.prefix pat (pat ++ post) = true.
Proof.
  induction pat as [|x pat IH]; simpl.
  - now destruct post.
  - destruct (ascii_dec x x) as [_|ne]; [exact IH | now destruct ne].
Qed.

Lemma prefix_inv (pat s : string) :
  String.prefix pat s = true -> exists post, s = pat ++ post.
Proof.
  revert s. induction pat as [|x pat IH]; intros s H.
  - now exists s.
  - destruct s as [|y s]; simpl in H; [discriminate|].
    destruct (ascii_dec x y) as [->|]; [|discriminate].
    destruct (IH s H) as [post ->]. now exists post.
Qed.

Lemma contains_prefix (pat s : string) :
  String.prefix pat s = true -> contains pat s = true.
Proof. destruct s; simpl; intros ->; reflexivity. Qed.

Lemma occurs_contains (pat s : string) : occurs pat s -> contains pat s = true.
Proof.
  intros (pre & post & ->). induction pre as [|x pre IH]; simpl.
  - apply contains_prefix, prefix_append.
  - rewrite IH. apply orb_true_r.
Qed.

Lemma contains_occurs (pat s : string) : contains pat s = true -> occurs pat s.
Proof.
  induction s as [|x s IH]; intros H.
  - destruct pat; [now exists "", "" | discriminate H].
  - change (String.prefix pat (String x s) || contains pat s = true) in H.
    apply orb_true_iff in H. destruct H as [H|H].
    + destruct (prefix_inv _ _ H) as [post Hp]. now exists "", post.
    + destruct (IH H) as (pre & post & ->). now exists (String x pre), post.
Qed.

Lemma contains_false_iff (pat s : string) :
  contains pat s = false <-> ~ occurs pat s.
Proof.
  split.
  - intros H Ho. apply occurs_contains in Ho. congruence.
  - intros H. destruct (contains pat s) eqn:Hc; [|reflexivity].
    destruct H. now apply contains_occurs.
Qed.

(** A pattern that starts before a character it does not contain ends
    before that character. *)
Lemma prefix_before_separator (pat post a b : string) (c : ascii) :
  has_char c pat = false ->
  pat ++ post = a ++ String c b ->
  exists post', a = pat ++ post'.
Proof.
  intros Hc. revert a. induction pat as [|x pat IH]; intros a H.
  - now exists a.
  - simpl in Hc. apply orb_false_iff in Hc. destruct Hc as [Hx Hc].
    destruct a as [|y a]; simpl in H.
    + injection H as -> _. now rewrite Ascii.eqb_refl in Hx.
    + injection H as -> H. destruct (IH Hc a H) as [post' ->].
      now exists post'.
Qed.

(** A pattern cannot straddle a character it does not contain. *)
Lemma occurs_across_separator (pat a b : string) (c : ascii) :
  has_char c pat = false ->
  occurs pat (a ++ String c b) -> occurs pat a \/ occurs pat b.
Proof.
  intros Hc (pre & post & H). revert a H.
  induction pre as [|x pre IH]; intros a H.
  - left. simpl in H. symmetry in H.
    destruct (prefix_before_separator _ _ _ _ _ Hc H) as [post' ->].
    now exists "", post'.
  - destruct a as [|y a]; simpl in H.
    + injection H as _ ->. right. now exists pre, post.
    + injection H as -> H. destruct (IH a H) as [(p & q & ->)|Hb].
      * left. now exists (String x p), q.
      * now right.
Qed.

(** The rendering without a reaction clause mentions "reaction_frame"
    only if one of the three rendered attributes does. *)
Lemma rendering_without_reaction_clause (se sv sf : string) :
  contains "reaction_frame" se = false ->
  contains "reaction_frame" sv = false ->
  contains "reaction_frame" sf = false ->
  contains "reaction_frame"
    ("TorqueActuator(" ++ se ++ ", axis=" ++ sv ++ ", target_frame=" ++ sf ++ ")")
  = false.
Proof.
  intros He Hv Hf. apply contains_false_iff. intros Ho.
  apply contains_false_iff in He, Hv, Hf.
  change (occurs "reaction_frame"
            ("TorqueActuator" ++ String "(" (se ++ String "," (" axis" ++ String "="
               (sv ++ String "," (" target_frame" ++ String "="
                  (sf ++ String ")" ""))))))) in Ho.
  repeat match type of Ho with
         | occurs _ (_ ++ String _ _) =>
             apply occurs_across_separator in Ho; [|reflexivity];
             destruct Ho as [Ho|Ho]
         end;
    try contradiction;
    apply occurs_contains in Ho; discriminate Ho.
Qed.

(** The f-string of [__repr__] is built in two steps; this is the text
    it ends up with. *)
Lemma repr_text_assoc (se sv sf tail : string) :
  ("TorqueActuator(" ++ se ++ ", axis=" ++ sv ++ ", " ++ "target_frame=" ++ sf)
  ++ tail
  = "TorqueActuator(" ++ se ++ ", axis=" ++ sv ++ ", target_frame=" ++ sf ++ tail.
Proof. rewrite !string_append_assoc. reflexivity. Qed.

Ltac run_repr :=
  unfold TorqueActuator_repr, TorqueActuator_torque, TorqueActuator_axis,
    TorqueActuator_target_frame, TorqueActuator_reaction_frame,
    read_attr, bind, gets, ret;
  simpl; f_equal; f_equal.

(** * The claims of the specification *)

Section Claims.

Context {E : Engine} {PI : PathwayImpl E}.

(** C1.  Delegation identity: for every valid magnitude and pathway,
    [ForceActuator(magnitude, pathway).to_loads()] is exactly the outcome
    of [pathway.compute_loads(magnitude)]: the loads it returns come out
    as they are, the error it raises comes out as it is, and the call
    leaves the actuator as it was. *)
Theorem ForceActuator_to_loads_delegates (force pathway : pyval) (w : World) :
  isinstance force cls_ExprType = true ->
  isinstance pathway cls_PathwayBase = true ->
  exists self e p,
    force = PyExpr e /\ pathway = PyPathway p
    /\ ForceActuator_new force pathway = inr self
    /\ ForceActuator_to_loads w self = (call_compute_loads w pathway force, self)
    /\ call_compute_loads w pathway force = external (compute_loads p w e)
    /\ (forall loads : list Load,
          compute_loads p w e = inr loads ->
          ForceActuator_to_loads w self = (inr loads, self))
    /\ (forall msg : string,
          compute_loads p w e = inl msg ->
          ForceActuator_to_loads w self = (inl (External msg), self)).
Proof.
  intros Hf Hp.
  destruct (isinstance_ExprType_inv _ Hf) as [e ->].
  destruct (isinstance_PathwayBase_inv _ Hp) as [p ->].
  exists {| _force := Some (PyExpr e); _pathway := Some (PyPathway p) |}, e, p.
  split; [reflexivity|]. split; [reflexivity|].
  split; [apply ForceActuator_new_accepts|].
  split; [reflexivity|]. split; [reflexivity|].
  assert (Hrun : forall r,
             compute_loads p w e = r ->
             ForceActuator_to_loads w
               {| _force := Some (PyExpr e); _pathway := Some (PyPathway p) |}
             = (external r,
                {| _force := Some (PyExpr e); _pathway := Some (PyPathway p) |})).
  { intros r <-. reflexivity. }
  split.
  - intros loads H. exact (Hrun _ H).
  - intros msg H. exact (Hrun _ H).
Qed.

(** C2 (as amended).  A valid torque actuator built with a reaction frame
    (a frame or a rigid body) returns exactly two torque loads, first
    [(target_frame, magnitude*axis)], then
    [(reaction_frame, -magnitude*axis)], whenever the engine forms these
    two products; when one of them raises, [to_loads] raises that error
    and returns no load.  The two vectors sum to the zero vector when the
    algebra has, at that magnitude and axis, the additive inverse, the
    product by a sum as the sum of the products, and the zero vector as
    the product by zero. *)
Theorem TorqueActuator_to_loads_pair
  (torque axis target_frame reaction_frame : pyval) :
  isinstance torque cls_ExprType = true ->
  isinstance axis cls_Vector = true ->
  frame_like target_frame = true ->
  frame_like reaction_frame = true ->
  exists self e v tf rf,
    torque = PyExpr e /\ axis = PyVector v
    /\ resolve_frame target_frame = Some tf
    /\ resolve_frame reaction_frame = Some rf
    /\ TorqueActuator_new torque axis target_frame reaction_frame = inr self
    /\ (forall m1 m2 : Vector,
          scale e v = inr m1 ->
          scale (expr_neg e) v = inr m2 ->
          TorqueActuator_to_loads self
          = (inr [Torque tf m1; Torque rf m2], self)
          /\ (algebra_laws_at e v -> vec_add m1 m2 = vec_zero))
    /\ (forall msg : string,
          scale e v = inl msg ->
          TorqueActuator_to_loads self = (inl (External msg), self))
    /\ (forall (m1 : Vector) (msg : string),
          scale e v = inr m1 ->
          scale (expr_neg e) v = inl msg ->
          TorqueActuator_to_loads self = (inl (External msg), self)).
Proof.
  intros Ht Ha Hf Hr.
  destruct (isinstance_ExprType_inv _ Ht) as [e ->].
  destruct (isinstance_Vector_inv _ Ha) as [v ->].
  destruct (frame_like_resolves _ Hf) as [tf Etf].
  destruct (frame_like_resolves _ Hr) as [rf Erf].
  exists {| _torque := Some (PyExpr e); _axis := Some (PyVector v);
            _target_frame := Some (PyReferenceFrame tf);
            _reaction_frame := Some (PyReferenceFrame rf) |}, e, v, tf, rf.
  split; [reflexivity|]. split; [reflexivity|].
  split; [exact Etf|]. split; [exact Erf|].
  split; [apply (TorqueActuator_new_accepts e v _ _ tf rf Etf Erf)|].
  split; [|split].
  - intros m1 m2 H1 H2. split.
    + now apply (TorqueActuator_to_loads_two _ e v tf rf m1 m2).
    + intros Hlaws. exact (opposite_moments_cancel e v m1 m2 Hlaws H1 H2).
  - intros msg H1.
    now apply (TorqueActuator_to_loads_raises _ e v tf (Some rf) msg).
  - intros m1 msg H1 H2.
    now apply (TorqueActuator_to_loads_raises_second _ e v tf rf m1 msg).
Qed.

(** C3 (as amended).  A valid torque actuator built with
    [reaction_frame=None] (explicitly or by default) returns exactly one
    load, [(target_frame, magnitude*axis)], whenever the engine forms
    that product; when the product raises, [to_loads] raises that error
    and returns no load. *)
Theorem TorqueActuator_to_loads_single (torque axis target_frame : pyval) :
  isinstance torque cls_ExprType = true ->
  isinstance axis cls_Vector = true ->
  frame_like target_frame = true ->
  exists self e v tf,
    torque = PyExpr e /\ axis = PyVector v
    /\ resolve_frame target_frame = Some tf
    /\ TorqueActuator_new torque axis target_frame PyNone = inr self
    /\ TorqueActuator_new3 torque axis target_frame = inr self
    /\ (forall m1 : Vector,
          scale e v = inr m1 ->
          TorqueActuator_to_loads self = (inr [Torque tf m1], self))
    /\ (forall msg : string,
          scale e v = inl msg ->
          TorqueActuator_to_loads self = (inl (External msg), self)).
Proof.
  intros Ht Ha Hf.
  destruct (isinstance_ExprType_inv _ Ht) as [e ->].
  destruct (isinstance_Vector_inv _ Ha) as [v ->].
  destruct (frame_like_resolves _ Hf) as [tf Etf].
  exists {| _torque := Some (PyExpr e); _axis := Some (PyVector v);
            _target_frame := Some (PyReferenceFrame tf);
            _reaction_frame := Some PyNone |}, e, v, tf.
  split; [reflexivity|]. split; [reflexivity|]. split; [exact Etf|].
  split; [apply (TorqueActuator_new_accepts_None e v _ tf Etf)|].
  split; [apply (TorqueActuator_new_accepts_None e v _ tf Etf)|].
  split.
  - intros m1 H1. now apply (TorqueActuator_to_loads_one _ e v tf m1).
  - intros msg H1. now apply (TorqueActuator_to_loads_raises _ e v tf None msg).
Qed.

(** C4.  [at_pin_joint(magnitude, joint)] is the direct construction from
    the joint's axis, parent interframe and child interframe: the same
    outcome for every magnitude (the same actuator, or the same error),
    hence the same stored attributes and the same outcome of [to_loads].
    The child interframe is the reaction frame: whenever [to_loads]
    returns loads, they are the torque on the parent interframe followed
    by the negated torque on the child interframe. *)
Theorem at_pin_joint_refines (torque : pyval) (joint : PinJoint) :
  TorqueActuator_at_pin_joint torque (PyPinJoint joint)
  = at_pin_joint_spec torque joint
  /\ (forall self self' : TorqueActuator,
      TorqueActuator_at_pin_joint torque (PyPinJoint joint) = inr self ->
      at_pin_joint_spec torque joint = inr self' ->
      self = self'
      /\ TorqueActuator_to_loads self = TorqueActuator_to_loads self')
  /\ (isinstance torque cls_ExprType = true ->
      exists self e,
        torque = PyExpr e
        /\ TorqueActuator_at_pin_joint torque (PyPinJoint joint) = inr self
        /\ _torque self = Some torque
        /\ _axis self = Some (PyVector (joint_axis joint))
        /\ _target_frame self = Some (PyReferenceFrame (parent_interframe joint))
        /\ _reaction_frame self = Some (PyReferenceFrame (child_interframe joint))
        /\ (forall m1 m2 : Vector,
              scale e (joint_axis joint) = inr m1 ->
              scale (expr_neg e) (joint_axis joint) = inr m2 ->
              TorqueActuator_to_loads self
              = (inr [Torque (parent_interframe joint) m1;
                      Torque (child_interframe joint) m2], self))
        /\ (forall loads : list Load,
              fst (TorqueActuator_to_loads self) = inr loads ->
              exists m1 m2,
                scale e (joint_axis joint) = inr m1
                /\ scale (expr_neg e) (joint_axis joint) = inr m2
                /\ loads = [Torque (parent_interframe joint) m1;
                            Torque (child_interframe joint) m2])).
Proof.
  split; [reflexivity|]. split.
  - intros self self' H H'. rewrite at_pin_joint_unfold in H.
    unfold at_pin_joint_spec in H'. rewrite H in H'.
    injection H' as <-. split; reflexivity.
  - intros Ht. destruct (isinstance_ExprType_inv _ Ht) as [e ->].
    exists {| _torque := Some (PyExpr e);
              _axis := Some (PyVector (joint_axis joint));
              _target_frame := Some (PyReferenceFrame (parent_interframe joint));
              _reaction_frame :=
                Some (PyReferenceFrame (child_interframe joint)) |}, e.
    rewrite at_pin_joint_unfold.
    split; [reflexivity|].
    split; [now apply TorqueActuator_new_accepts|].
    do 4 (split; [reflexivity|]).
    split.
    + intros m1 m2 H1 H2.
      now apply (TorqueActuator_to_loads_two _ e (joint_axis joint)
                   (parent_interframe joint) (child_interframe joint) m1 m2).
    + intros loads.
      rewrite (TorqueActuator_to_loads_run
                 {| _torque := Some (PyExpr e);
                    _axis := Some (PyVector (joint_axis joint));
                    _target_frame :=
                      Some (PyReferenceFrame (parent_interframe joint));
                    _reaction_frame :=
                      Some (PyReferenceFrame (child_interframe joint)) |}
                 e (joint_axis joint)
                 (parent_interframe joint) (Some (child_interframe joint))
                 eq_refl eq_refl eq_refl eq_refl).
      cbn [fst]. intros H. apply torque_loads_returns in H.
      destruct H as (m1 & H1 & m2 & H2 & ->). now exists m1, m2.
Qed.

(** C5.  A rigid body given as [target_frame] or [reaction_frame], to the
    constructor or in a reassignment, has the same effect as its attached
    frame given directly.  On every actuator a client can hold, whatever
    was assigned since its construction, the stored target frame is a
    plain reference frame and the stored reaction frame is a plain
    reference frame or [None]; neither is ever a body. *)
Theorem frames_are_stored_never_bodies :
  (forall (b : RigidBody) (self : TorqueActuator),
      TorqueActuator_target_frame_setter (PyRigidBody b) self
      = TorqueActuator_target_frame_setter (PyReferenceFrame (frame b)) self
      /\ TorqueActuator_reaction_frame_setter (PyRigidBody b) self
         = TorqueActuator_reaction_frame_setter
             (PyReferenceFrame (frame b)) self
      /\ _target_frame (snd (TorqueActuator_target_frame_setter (PyRigidBody b) self))
         = Some (PyReferenceFrame (frame b))
      /\ _reaction_frame
           (snd (TorqueActuator_reaction_frame_setter (PyRigidBody b) self))
         = Some (PyReferenceFrame (frame b)))
  /\ (forall (b : RigidBody) (torque axis other : pyval),
      TorqueActuator_new torque axis (PyRigidBody b) other
      = TorqueActuator_new torque axis (PyReferenceFrame (frame b)) other
      /\ TorqueActuator_new torque axis other (PyRigidBody b)
         = TorqueActuator_new torque axis other
             (PyReferenceFrame (frame b)))
  /\ (forall self : TorqueActuator,
      TorqueActuator_reachable self ->
      stored_as (_target_frame self) cls_ReferenceFrame = true
      /\ stored_as (_target_frame self) cls_RigidBody = false
      /\ (stored_as (_reaction_frame self) cls_ReferenceFrame
          || stored_None (_reaction_frame self)) = true
      /\ stored_as (_reaction_frame self) cls_RigidBody = false).
Proof.
  split; [|split].
  - intros b self. repeat split.
  - intros b torque axis other. split; reflexivity.
  - intros self Hreach.
    apply TorqueActuator_reachable_valid, TorqueActuator_valid_inv in Hreach.
    destruct Hreach as (e & v & tf & _ & _ & Hf & Hr). rewrite Hf.
    destruct Hr as [Hr | [rf Hr]]; rewrite Hr; repeat split.
Qed.

(** C6.  An assignment of an invalid value raises the type error at the
    assignment itself, in a reassignment as in the constructor, and the
    actuator is left as it was.  In a constructor the first invalid
    argument, in parameter order, is the error of the whole call and no
    actuator is returned; a constructor that returns, returns an actuator
    whose attributes are all valid. *)
Theorem invalid_assignment_raises_at_once :
  (forall (a : ForceActuator_assignment) (self : ForceActuator) (e : exn),
      ForceActuator_refuses a = Some e ->
      ForceActuator_assign a self = (inl e, self))
  /\ (forall (a : TorqueActuator_assignment) (self : TorqueActuator) (e : exn),
      TorqueActuator_refuses a = Some e ->
      TorqueActuator_assign a self = (inl e, self))
  /\ (forall (force pathway : pyval) (e : exn),
      ForceActuator_first_invalid force pathway = Some e ->
      ForceActuator_new force pathway = inl e)
  /\ (forall (torque axis target_frame reaction_frame : pyval) (e : exn),
      TorqueActuator_first_invalid torque axis target_frame reaction_frame = Some e ->
      TorqueActuator_new torque axis target_frame reaction_frame = inl e)
  /\ (forall (force pathway : pyval) (self : ForceActuator),
      ForceActuator_new force pathway = inr self ->
      ForceActuator_first_invalid force pathway = None
      /\ ForceActuator_valid self = true)
  /\ (forall (torque axis target_frame reaction_frame : pyval)
        (self : TorqueActuator),
      TorqueActuator_new torque axis target_frame reaction_frame = inr self ->
      TorqueActuator_first_invalid torque axis target_frame reaction_frame = None
      /\ TorqueActuator_valid self = true).
Proof.
  repeat apply conj.
  - intros [v|v] self e; destruct v; simpl; intros [= <-]; reflexivity.
  - intros [v|v|v|v] self e; destruct v; simpl; intros [= <-]; reflexivity.
  - intros force pathway e.
    destruct force; simpl; try (intros [= <-]; reflexivity).
    destruct pathway; simpl; intros [= <-]; reflexivity.
  - intros torque axis target_frame reaction_frame e.
    destruct torque; simpl; try (intros [= <-]; reflexivity).
    destruct axis; simpl; try (intros [= <-]; reflexivity).
    destruct target_frame; simpl; try (intros [= <-]; reflexivity);
      destruct reaction_frame; simpl; intros [= <-]; reflexivity.
  - intros force pathway self H. split; [|exact (ForceActuator_new_valid _ _ _ H)].
    revert H. destruct force; simpl; try discriminate.
    destruct pathway; simpl; try discriminate. reflexivity.
  - intros torque axis target_frame reaction_frame self H.
    split; [|exact (TorqueActuator_new_valid _ _ _ _ _ H)].
    revert H. destruct torque; simpl; try discriminate.
    destruct axis; simpl; try discriminate.
    destruct target_frame; simpl; try discriminate;
      destruct reaction_frame; simpl; try discriminate; reflexivity.
Qed.

(** C7 (as amended).  [at_pin_joint] tests the class of [pin_joint], not
    its attributes.  Every [PinJoint] instance is accepted and the actuator
    is built with the joint's axis, its parent interframe as target and
    its child interframe as reaction; every value that is not a [PinJoint]
    instance is rejected with the type error, whether or not it exposes
    the three attributes; a value that lacks one of them is never a
    [PinJoint]. *)
Theorem at_pin_joint_is_nominal (torque : pyval) :
  (forall joint : PinJoint,
      isinstance torque cls_ExprType = true ->
      exposes_joint_attributes (PyPinJoint joint) = true
      /\ exists self,
           TorqueActuator_at_pin_joint torque (PyPinJoint joint) = inr self
           /\ _axis self = Some (PyVector (joint_axis joint))
           /\ _target_frame self
              = Some (PyReferenceFrame (parent_interframe joint))
           /\ _reaction_frame self
              = Some (PyReferenceFrame (child_interframe joint)))
  /\ (forall x : pyval,
      isinstance x cls_PinJoint = false ->
      TorqueActuator_at_pin_joint torque x
      = inl (TypeError "pin_joint" x cls_PinJoint))
  /\ (forall x : pyval,
      exposes_joint_attributes x = false ->
      isinstance x cls_PinJoint = false).
Proof.
  split; [|split].
  - intros joint Ht. split; [reflexivity|].
    destruct (isinstance_ExprType_inv _ Ht) as [e ->].
    exists {| _torque := Some (PyExpr e);
              _axis := Some (PyVector (joint_axis joint));
              _target_frame := Some (PyReferenceFrame (parent_interframe joint));
              _reaction_frame := Some (PyReferenceFrame (child_interframe joint)) |}.
    rewrite at_pin_joint_unfold.
    split; [now apply TorqueActuator_new_accepts|]. repeat split.
  - intros x Hx. now apply at_pin_joint_rejects.
  - intros x Hx. destruct x; try reflexivity. discriminate Hx.
Qed.


(** C9.  The representation of a valid torque actuator is
    [TorqueActuator(<torque>, axis=<axis>, target_frame=<name>] followed
    by [, reaction_frame=<name>)] when there is a reaction frame and by
    [)] alone when it is [None]; without a reaction frame the text
    mentions "reaction_frame" only if the rendered torque, axis or target
    frame name does. *)
Theorem TorqueActuator_repr_renders (self : TorqueActuator)
  (e : Expr) (v : Vector) (tf : ReferenceFrame) :
  _torque self = Some (PyExpr e) ->
  _axis self = Some (PyVector v) ->
  _target_frame self = Some (PyReferenceFrame tf) ->
  (forall rf : ReferenceFrame,
      _reaction_frame self = Some (PyReferenceFrame rf) ->
      TorqueActuator_repr self
      = (inr ("TorqueActuator(" ++ expr_str e ++ ", axis=" ++ vector_str v
              ++ ", target_frame=" ++ frame_name tf
              ++ ", reaction_frame=" ++ frame_name rf ++ ")"), self))
  /\ (_reaction_frame self = Some PyNone ->
      TorqueActuator_repr self
      = (inr ("TorqueActuator(" ++ expr_str e ++ ", axis=" ++ vector_str v
              ++ ", target_frame=" ++ frame_name tf ++ ")"), self)
      /\ (contains "reaction_frame" (expr_str e) = false ->
          contains "reaction_frame" (vector_str v) = false ->
          contains "reaction_frame" (frame_name tf) = false ->
          forall text, fst (TorqueActuator_repr self) = inr text ->
          contains "reaction_frame" text = false)).
Proof.
  destruct self as [t a f r]; simpl. intros -> -> ->.
  assert (Hnone :
    TorqueActuator_repr
      {| _torque := Some (PyExpr e); _axis := Some (PyVector v);
         _target_frame := Some (PyReferenceFrame tf);
         _reaction_frame := Some PyNone |}
    = (inr ("TorqueActuator(" ++ expr_str e ++ ", axis=" ++ vector_str v
            ++ ", target_frame=" ++ frame_name tf ++ ")"),
       {| _torque := Some (PyExpr e); _axis := Some (PyVector v);
          _target_frame := Some (PyReferenceFrame tf);
          _reaction_frame := Some PyNone |})).
  { run_repr. exact (repr_text_assoc _ _ _ ")"). }
  split.
  - intros rf ->. run_repr.
    exact (repr_text_assoc _ _ _ (", reaction_frame=" ++ frame_name rf ++ ")")).
  - intros ->. split; [exact Hnone|].
    intros He Hv Hf text. rewrite Hnone. simpl. intros [= <-].
    now apply rendering_without_reaction_clause.
Qed.

(** C10.  A reassignment that raises leaves every stored attribute as it
    was, so [to_loads] afterwards is what it was before. *)
Theorem failed_assignment_keeps_state :
  (forall (a : ForceActuator_assignment) (self : ForceActuator) (e : exn)
      (w : World),
      fst (ForceActuator_assign a self) = inl e ->
      ForceActuator_refuses a = Some e
      /\ snd (ForceActuator_assign a self) = self
      /\ ForceActuator_to_loads w (snd (ForceActuator_assign a self))
         = ForceActuator_to_loads w self)
  /\ (forall (a : TorqueActuator_assignment) (self : TorqueActuator) (e : exn),
      fst (TorqueActuator_assign a self) = inl e ->
      TorqueActuator_refuses a = Some e
      /\ snd (TorqueActuator_assign a self) = self
      /\ TorqueActuator_to_loads (snd (TorqueActuator_assign a self))
         = TorqueActuator_to_loads self).
Proof.
  split.
  - intros a self e w H.
    pose proof (ForceActuator_assign_raises_same a self e H) as Hs.
    rewrite Hs. repeat split.
    destruct a as [v|v]; destruct v; simpl in H |- *; congruence.
  - intros a self e H.
    pose proof (TorqueActuator_assign_raises_same a self e H) as Hs.
    rewrite Hs. repeat split.
    destruct a as [v|v|v|v]; destruct v; simpl in H |- *; congruence.
Qed.

End Claims.

(** * Further properties of the module *)

Section Attributes.

Context {E : Engine} {PI : PathwayImpl E}.

(** ** What an assignment does, in one equation *)

Lemma ForceActuator_assign_run (a : ForceActuator_assignment)
  (self : ForceActuator) :
  ForceActuator_assign a self
  = match ForceActuator_refuses a with
    | Some e => (inl e, self)
    | None =>
        (inr tt, ForceActuator_store (ForceActuator_attribute_of a)
                   (ForceActuator_assigned a) self)
    end.
Proof. destruct a as [v|v]; destruct v; reflexivity. Qed.

Lemma TorqueActuator_assign_run (a : TorqueActuator_assignment)
  (self : TorqueActuator) :
  TorqueActuator_assign a self
  = match TorqueActuator_refuses a with
    | Some e => (inl e, self)
    | None =>
        (inr tt, TorqueActuator_store (TorqueActuator_attribute_of a)
                   (TorqueActuator_assigned a) self)
    end.
Proof. destruct a as [v|v|v|v]; destruct v; reflexivity. Qed.

Lemma ForceActuator_get_store (x : ForceActuator_attribute) (v : pyval)
  (self : ForceActuator) :
  ForceActuator_get x (ForceActuator_store x v self)
  = (inr v, ForceActuator_store x v self).
Proof. destruct x; reflexivity. Qed.

Lemma TorqueActuator_get_store (x : TorqueActuator_attribute) (v : pyval)
  (self : TorqueActuator) :
  TorqueActuator_get x (TorqueActuator_store x v self)
  = (inr v, TorqueActuator_store x v self).
Proof. destruct x; reflexivity. Qed.

Lemma ForceActuator_get_store_other (x y : ForceActuator_attribute) (v : pyval)
  (self : ForceActuator) :
  x <> y ->
  fst (ForceActuator_get y (ForceActuator_store x v self))
  = fst (ForceActuator_get y self).
Proof.
  destruct self as [f p]. destruct x, y; intros H; try congruence; cbn;
    match goal with
    | |- fst (match ?o with _ => _ end _) = _ => destruct o; reflexivity
    end.
Qed.

Lemma TorqueActuator_get_store_other (x y : TorqueActuator_attribute) (v : pyval)
  (self : TorqueActuator) :
  x <> y ->
  fst (TorqueActuator_get y (TorqueActuator_store x v self))
  = fst (TorqueActuator_get y self).
Proof.
  destruct self as [t a f r].
  destruct x, y; intros H; try congruence; cbn;
    match goal with
    | |- fst (match ?o with _ => _ end _) = _ => destruct o; reflexivity
    end.
Qed.

Lemma TorqueActuator_store_store (x y : TorqueActuator_attribute) (v w : pyval)
  (self : TorqueActuator) :
  TorqueActuator_store y w (TorqueActuator_store x v self)
  = if match x, y with
       | attr_torque, attr_torque | attr_axis, attr_axis
       | attr_target_frame, attr_target_frame
       | attr_reaction_frame, attr_reaction_frame => true
       | _, _ => false
       end
    then TorqueActuator_store y w self
    else TorqueActuator_store x v (TorqueActuator_store y w self).
Proof. destruct x, y; reflexivity. Qed.

Lemma ForceActuator_store_store (x y : ForceActuator_attribute) (v w : pyval)
  (self : ForceActuator) :
  ForceActuator_store y w (ForceActuator_store x v self)
  = if match x, y with
       | attr_force, attr_force | attr_pathway, attr_pathway => true
       | _, _ => false
       end
    then ForceActuator_store y w self
    else ForceActuator_store x v (ForceActuator_store y w self).
Proof. destruct x, y; reflexivity. Qed.

(** ** Getters on a valid actuator *)

Lemma ForceActuator_getters_valid (self : ForceActuator) :
  ForceActuator_valid self = true ->
  exists e p,
    ForceActuator_get attr_force self = (inr (PyExpr e), self)
    /\ ForceActuator_get attr_pathway self = (inr (PyPathway p), self)
    /\ _force self = Some (PyExpr e) /\ _pathway self = Some (PyPathway p).
Proof.
  intros Hv. destruct (ForceActuator_valid_inv _ Hv) as (e & p & Hf & Hp).
  exists e, p. destruct self as [f q]; simpl in Hf, Hp; subst.
  repeat split.
Qed.

Lemma TorqueActuator_getters_valid (self : TorqueActuator) :
  TorqueActuator_valid self = true ->
  exists e v tf,
    TorqueActuator_get attr_torque self = (inr (PyExpr e), self)
    /\ TorqueActuator_get attr_axis self = (inr (PyVector v), self)
    /\ TorqueActuator_get attr_target_frame self
       = (inr (PyReferenceFrame tf), self)
    /\ _torque self = Some (PyExpr e) /\ _axis self = Some (PyVector v)
    /\ _target_frame self = Some (PyReferenceFrame tf)
    /\ ((TorqueActuator_get attr_reaction_frame self = (inr PyNone, self)
         /\ _reaction_frame self = Some PyNone)
        \/ exists rf,
             TorqueActuator_get attr_reaction_frame self
             = (inr (PyReferenceFrame rf), self)
             /\ _reaction_frame self = Some (PyReferenceFrame rf)).
Proof.
  intros Hv.
  destruct (TorqueActuator_valid_inv _ Hv) as (e & v & tf & Ht & Ha & Hf & Hr).
  exists e, v, tf. destruct self as [t a f r]; simpl in Ht, Ha, Hf, Hr; subst.
  do 6 (split; [reflexivity|]).
  destruct Hr as [-> | [rf ->]]; [left | right; exists rf]; split; reflexivity.
Qed.

(** The two renderings of a torque actuator, on its attributes. *)
Lemma TorqueActuator_repr_two_sided (e : Expr) (v : Vector)
  (tf rf : ReferenceFrame) (self : TorqueActuator) :
  self = {| _torque := Some (PyExpr e); _axis := Some (PyVector v);
            _target_frame := Some (PyReferenceFrame tf);
            _reaction_frame := Some (PyReferenceFrame rf) |} ->
  TorqueActuator_repr self
  = (inr ("TorqueActuator(" ++ expr_str e ++ ", axis=" ++ vector_str v
          ++ ", target_frame=" ++ frame_name tf
          ++ ", reaction_frame=" ++ frame_name rf ++ ")"), self).
Proof.
  intros ->. run_repr.
  exact (repr_text_assoc _ _ _ (", reaction_frame=" ++ frame_name rf ++ ")")).
Qed.

Lemma TorqueActuator_repr_one_sided (e : Expr) (v : Vector)
  (tf : ReferenceFrame) (self : TorqueActuator) :
  self = {| _torque := Some (PyExpr e); _axis := Some (PyVector v);
            _target_frame := Some (PyReferenceFrame tf);
            _reaction_frame := Some PyNone |} ->
  TorqueActuator_repr self
  = (inr ("TorqueActuator(" ++ expr_str e ++ ", axis=" ++ vector_str v
          ++ ", target_frame=" ++ frame_name tf ++ ")"), self).
Proof. intros ->. run_repr. exact (repr_text_assoc _ _ _ ")"). Qed.

Lemma TorqueActuator_new_refuses_torque
  (torque axis target_frame reaction_frame : pyval) :
  isinstance torque cls_ExprType = false ->
  TorqueActuator_new torque axis target_frame reaction_frame
  = inl (TypeError "torque" torque cls_ExprType).
Proof.
  intros H.
  unfold TorqueActuator_new, construct, TorqueActuator_init, bind,
    TorqueActuator_torque_setter.
  rewrite H. reflexivity.
Qed.

End Attributes.

Section Extras.

Context {E : Engine} {PI : PathwayImpl E}.

(** X1.  On every force actuator a client can hold, [__repr__] is
    [ForceActuator(<force>, <pathway>)], rendered from the values the two
    getters return at that moment, and it leaves the actuator as it was. *)
Theorem ForceActuator_repr_renders (self : ForceActuator) :
  ForceActuator_reachable self ->
  exists e p,
    ForceActuator_get attr_force self = (inr (PyExpr e), self)
    /\ ForceActuator_get attr_pathway self = (inr (PyPathway p), self)
    /\ ForceActuator_repr self
       = (inr ("ForceActuator(" ++ expr_str e ++ ", " ++ pathway_str p ++ ")"),
          self).
Proof.
  intros Hr. apply ForceActuator_reachable_valid in Hr.
  destruct (ForceActuator_getters_valid _ Hr) as (e & p & Hf & Hp & Kf & Kp).
  exists e, p. split; [exact Hf|]. split; [exact Hp|].
  destruct self as [f q]; simpl in Kf, Kp; subst. reflexivity.
Qed.

(** X2.  An assignment of an acceptable value returns, and reading the
    attribute back gives that value: the value itself for [force],
    [pathway], [torque] and [axis]; for the two frame attributes the frame
    of the body when a body was assigned, and [None] when [None] was
    assigned to [reaction_frame]. *)
Theorem assignment_then_read :
  (forall (a : ForceActuator_assignment) (self : ForceActuator),
      ForceActuator_refuses a = None ->
      exists self',
        ForceActuator_assign a self = (inr tt, self')
        /\ ForceActuator_get (ForceActuator_attribute_of a) self'
           = (inr (ForceActuator_assigned a), self'))
  /\ (forall (a : TorqueActuator_assignment) (self : TorqueActuator),
      TorqueActuator_refuses a = None ->
      exists self',
        TorqueActuator_assign a self = (inr tt, self')
        /\ TorqueActuator_get (TorqueActuator_attribute_of a) self'
           = (inr (TorqueActuator_assigned a), self'))
  /\ (forall (b : RigidBody) (self : TorqueActuator),
      fst (TorqueActuator_get attr_target_frame
             (snd (TorqueActuator_assign (assign_target_frame (PyRigidBody b)) self)))
      = inr (PyReferenceFrame (frame b))
      /\ fst (TorqueActuator_get attr_reaction_frame
                (snd (TorqueActuator_assign
                        (assign_reaction_frame (PyRigidBody b)) self)))
         = inr (PyReferenceFrame (frame b)))
  /\ (forall self : TorqueActuator,
      fst (TorqueActuator_get attr_reaction_frame
             (snd (TorqueActuator_assign (assign_reaction_frame PyNone) self)))
      = inr PyNone).
Proof.
  split; [|split; [|split]].
  - intros a self Ha. rewrite ForceActuator_assign_run, Ha.
    eexists. split; [reflexivity|]. apply ForceActuator_get_store.
  - intros a self Ha. rewrite TorqueActuator_assign_run, Ha.
    eexists. split; [reflexivity|]. apply TorqueActuator_get_store.
  - intros b self. split; reflexivity.
  - intros self. reflexivity.
Qed.

(** X3.  An assignment, accepted or refused, changes no attribute but
    its own: every other getter returns afterwards what it returned
    before. *)
Theorem assignment_leaves_other_attributes :
  (forall (a : ForceActuator_assignment) (x : ForceActuator_attribute)
      (self : ForceActuator),
      ForceActuator_attribute_of a <> x ->
      fst (ForceActuator_get x (snd (ForceActuator_assign a self)))
      = fst (ForceActuator_get x self))
  /\ (forall (a : TorqueActuator_assignment) (x : TorqueActuator_attribute)
      (self : TorqueActuator),
      TorqueActuator_attribute_of a <> x ->
      fst (TorqueActuator_get x (snd (TorqueActuator_assign a self)))
      = fst (TorqueActuator_get x self)).
Proof.
  split.
  - intros a x self Hx. rewrite ForceActuator_assign_run.
    destruct (ForceActuator_refuses a); simpl; [reflexivity|].
    now apply ForceActuator_get_store_other.
  - intros a x self Hx. rewrite TorqueActuator_assign_run.
    destruct (TorqueActuator_refuses a); simpl; [reflexivity|].
    now apply TorqueActuator_get_store_other.
Qed.

(** X4.  Whether an assignment is accepted does not depend on the
    actuator it is made on.  Assignments to different attributes can be
    made in either order with the same final actuator; of two assignments
    to the same attribute, an accepted second one decides alone. *)
Theorem assignments_compose :
  (forall (a b : TorqueActuator_assignment) (self : TorqueActuator),
      fst (TorqueActuator_assign b (snd (TorqueActuator_assign a self)))
      = fst (TorqueActuator_assign b self))
  /\ (forall (a b : TorqueActuator_assignment) (self : TorqueActuator),
      TorqueActuator_attribute_of a <> TorqueActuator_attribute_of b ->
      TorqueActuator_assign_all [a; b] self = TorqueActuator_assign_all [b; a] self)
  /\ (forall (a b : TorqueActuator_assignment) (self : TorqueActuator),
      TorqueActuator_attribute_of a = TorqueActuator_attribute_of b ->
      TorqueActuator_refuses b = None ->
      TorqueActuator_assign_all [a; b] self = TorqueActuator_assign_all [b] self)
  /\ (forall (a b : ForceActuator_assignment) (self : ForceActuator),
      fst (ForceActuator_assign b (snd (ForceActuator_assign a self)))
      = fst (ForceActuator_assign b self))
  /\ (forall (a b : ForceActuator_assignment) (self : ForceActuator),
      ForceActuator_attribute_of a <> ForceActuator_attribute_of b ->
      ForceActuator_assign_all [a; b] self = ForceActuator_assign_all [b; a] self)
  /\ (forall (a b : ForceActuator_assignment) (self : ForceActuator),
      ForceActuator_attribute_of a = ForceActuator_attribute_of b ->
      ForceActuator_refuses b = None ->
      ForceActuator_assign_all [a; b] self = ForceActuator_assign_all [b] self).
Proof.
  repeat apply conj.
  - intros a b self. rewrite !TorqueActuator_assign_run.
    destruct (TorqueActuator_refuses b); reflexivity.
  - intros a b self Hab. unfold TorqueActuator_assign_all. simpl.
    rewrite !TorqueActuator_assign_run.
    destruct (TorqueActuator_refuses a), (TorqueActuator_refuses b); simpl;
      try reflexivity.
    rewrite TorqueActuator_store_store.
    destruct (TorqueActuator_attribute_of a), (TorqueActuator_attribute_of b);
      try reflexivity; now destruct Hab.
  - intros a b self Hab Hb. unfold TorqueActuator_assign_all. simpl.
    rewrite !TorqueActuator_assign_run, Hb.
    destruct (TorqueActuator_refuses a); simpl; [reflexivity|].
    rewrite TorqueActuator_store_store, Hab.
    destruct (TorqueActuator_attribute_of b); reflexivity.
  - intros a b self. rewrite !ForceActuator_assign_run.
    destruct (ForceActuator_refuses b); reflexivity.
  - intros a b self Hab. unfold ForceActuator_assign_all. simpl.
    rewrite !ForceActuator_assign_run.
    destruct (ForceActuator_refuses a), (ForceActuator_refuses b); simpl;
      try reflexivity.
    rewrite ForceActuator_store_store.
    destruct (ForceActuator_attribute_of a), (ForceActuator_attribute_of b);
      try reflexivity; now destruct Hab.
  - intros a b self Hab Hb. unfold ForceActuator_assign_all. simpl.
    rewrite !ForceActuator_assign_run, Hb.
    destruct (ForceActuator_refuses a); simpl; [reflexivity|].
    rewrite ForceActuator_store_store, Hab.
    destruct (ForceActuator_attribute_of b); reflexivity.
Qed.

(** X5.  An actuator keeps nothing but its attributes: assigning to an
    existing actuator, whatever its history, the arguments of a
    successful construction gives exactly the actuator that construction
    returns. *)
Theorem reassigning_everything_rebuilds :
  (forall (force pathway : pyval) (built self : ForceActuator),
      ForceActuator_new force pathway = inr built ->
      ForceActuator_assign_all [assign_force force; assign_pathway pathway] self
      = built)
  /\ (forall (torque axis target_frame reaction_frame : pyval)
        (built self : TorqueActuator),
      TorqueActuator_new torque axis target_frame reaction_frame = inr built ->
      TorqueActuator_assign_all
        [assign_torque torque; assign_axis axis;
         assign_target_frame target_frame;
         assign_reaction_frame reaction_frame] self
      = built).
Proof.
  split.
  - intros force pathway built self.
    unfold ForceActuator_new, construct, ForceActuator_init, bind.
    destruct force; simpl; try discriminate.
    destruct pathway; simpl; try discriminate.
    intros [= <-]. reflexivity.
  - intros torque axis target_frame reaction_frame built self.
    unfold TorqueActuator_new, construct, TorqueActuator_init, bind.
    destruct torque; simpl; try discriminate.
    destruct axis; simpl; try discriminate.
    destruct target_frame; simpl; try discriminate;
      destruct reaction_frame; simpl; try discriminate;
      intros [= <-]; reflexivity.
Qed.

(** X6.  [at_pin_joint] returns an actuator exactly when [pin_joint] is a
    [PinJoint] instance and [torque] is an expression.  Otherwise the
    error is about [pin_joint] when that is not a [PinJoint], whatever the
    torque, and about [torque] only for a [PinJoint]: the joint's own
    axis and interframes are never refused. *)
Theorem at_pin_joint_outcome (torque pin_joint : pyval) :
  ((exists self, TorqueActuator_at_pin_joint torque pin_joint = inr self)
   <-> isinstance pin_joint cls_PinJoint && isinstance torque cls_ExprType = true)
  /\ (forall e : exn,
      TorqueActuator_at_pin_joint torque pin_joint = inl e ->
      e = if isinstance pin_joint cls_PinJoint
          then TypeError "torque" torque cls_ExprType
          else TypeError "pin_joint" pin_joint cls_PinJoint).
Proof.
  destruct (isinstance pin_joint cls_PinJoint) eqn:Hj.
  - destruct (isinstance_PinJoint_inv _ Hj) as [j ->].
    rewrite at_pin_joint_unfold. simpl.
    destruct (isinstance torque cls_ExprType) eqn:Ht.
    + destruct (isinstance_ExprType_inv _ Ht) as [e ->].
      rewrite (TorqueActuator_new_accepts e (joint_axis j)
                 (PyReferenceFrame (parent_interframe j))
                 (PyReferenceFrame (child_interframe j))
                 (parent_interframe j) (child_interframe j) eq_refl eq_refl).
      split; [split; [reflexivity | intros _; eexists; reflexivity]|].
      intros e0 H. discriminate H.
    + rewrite (TorqueActuator_new_refuses_torque _ _ _ _ Ht).
      split; [split; [intros [self H]; discriminate H | discriminate]|].
      intros e0 [= <-]. reflexivity.
  - rewrite (at_pin_joint_rejects _ _ Hj). simpl. split.
    + split; [intros [self H]; discriminate H | discriminate].
    + intros e0 [= <-]. reflexivity.
Qed.

(** X7.  A constructor whose arguments are all acceptable returns an
    actuator whose getters give the arguments back, a body given as a
    frame being read back as its frame and a [None] reaction frame as
    [None]. *)
Theorem construction_then_read :
  (forall force pathway : pyval,
      ForceActuator_first_invalid force pathway = None ->
      exists self,
        ForceActuator_new force pathway = inr self
        /\ ForceActuator_get attr_force self = (inr force, self)
        /\ ForceActuator_get attr_pathway self = (inr pathway, self))
  /\ (forall torque axis target_frame reaction_frame : pyval,
      TorqueActuator_first_invalid torque axis target_frame reaction_frame = None ->
      exists self,
        TorqueActuator_new torque axis target_frame reaction_frame = inr self
        /\ TorqueActuator_get attr_torque self = (inr torque, self)
        /\ TorqueActuator_get attr_axis self = (inr axis, self)
        /\ TorqueActuator_get attr_target_frame self
           = (inr (stored_frame target_frame), self)
        /\ TorqueActuator_get attr_reaction_frame self
           = (inr (stored_frame reaction_frame), self)).
Proof.
  split.
  - intros force pathway.
    destruct force; simpl; try discriminate.
    destruct pathway; simpl; try discriminate.
    intros _. eexists. repeat split.
  - intros torque axis target_frame reaction_frame.
    destruct torque; simpl; try discriminate.
    destruct axis; simpl; try discriminate.
    destruct target_frame; simpl; try discriminate;
      destruct reaction_frame; simpl; try discriminate;
      intros _; eexists; repeat split.
Qed.

(** X8.  On every torque actuator a client can hold, after any
    assignments, the outcome of [to_loads] follows the values the getters
    give at that moment: the torque load on the target frame with the
    product torque*axis, followed, when the reaction frame is not [None],
    by the torque load on the reaction frame with the product
    (-torque)*axis; or the error of the first of these products that the
    engine raises.  A returned list is never empty, never longer than
    two, and holds no force load; an error is never one of [to_loads]'s
    own. *)
Theorem TorqueActuator_to_loads_follows_attributes (self : TorqueActuator) :
  TorqueActuator_reachable self ->
  exists e v tf,
    TorqueActuator_get attr_torque self = (inr (PyExpr e), self)
    /\ TorqueActuator_get attr_axis self = (inr (PyVector v), self)
    /\ TorqueActuator_get attr_target_frame self
       = (inr (PyReferenceFrame tf), self)
    /\ ((TorqueActuator_get attr_reaction_frame self = (inr PyNone, self)
         /\ TorqueActuator_to_loads self
            = (match scale e v with
               | inl msg => inl (External msg)
               | inr m1 => inr [Torque tf m1]
               end, self))
        \/ exists rf,
             TorqueActuator_get attr_reaction_frame self
             = (inr (PyReferenceFrame rf), self)
             /\ TorqueActuator_to_loads self
                = (match scale e v with
                   | inl msg => inl (External msg)
                   | inr m1 =>
                       match scale (expr_neg e) v with
                       | inl msg => inl (External msg)
                       | inr m2 => inr [Torque tf m1; Torque rf m2]
                       end
                   end, self))
    /\ (forall loads : list Load,
          fst (TorqueActuator_to_loads self) = inr loads ->
          forallb is_Torque loads = true /\ 1 <= length loads <= 2)
    /\ (forall err : exn,
          fst (TorqueActuator_to_loads self) = inl err ->
          exists msg,
            err = External msg
            /\ (scale e v = inl msg \/ scale (expr_neg e) v = inl msg)).
Proof.
  intros Hr. apply TorqueActuator_reachable_valid in Hr.
  destruct (TorqueActuator_getters_valid _ Hr)
    as (e & v & tf & Gt & Ga & Gf & Kt & Ka & Kf & Hrf).
  exists e, v, tf. do 3 (split; [assumption|]).
  destruct Hrf as [[Gr Kr] | [rf [Gr Kr]]].
  - pose proof (TorqueActuator_to_loads_run self e v tf None Kt Ka Kf Kr)
      as Hrun.
    split; [left; split; [exact Gr | exact Hrun]|].
    rewrite Hrun. cbn [fst]. split.
    + intros loads H. apply torque_loads_returns in H.
      destruct H as (m1 & _ & ->). split; [reflexivity | simpl; lia].
    + intros err H. now apply torque_loads_raises in H.
  - pose proof (TorqueActuator_to_loads_run self e v tf (Some rf) Kt Ka Kf Kr)
      as Hrun.
    split; [right; exists rf; split; [exact Gr | exact Hrun]|].
    rewrite Hrun. cbn [fst]. split.
    + intros loads H. apply torque_loads_returns in H.
      destruct H as (m1 & _ & m2 & _ & ->). split; [reflexivity | simpl; lia].
    + intros err H. now apply torque_loads_raises in H.
Qed.

(** X9.  On every force actuator a client can hold, after any
    assignments, [to_loads] is the pathway's [compute_loads] on the force
    and pathway the getters give at that moment.  It raises nothing of
    its own: an error out of [to_loads] is the error the pathway raised,
    and when the pathway returns loads, so does [to_loads]. *)
Theorem ForceActuator_to_loads_follows_attributes (w : World)
  (self : ForceActuator) :
  ForceActuator_reachable self ->
  exists e p,
    ForceActuator_get attr_force self = (inr (PyExpr e), self)
    /\ ForceActuator_get attr_pathway self = (inr (PyPathway p), self)
    /\ ForceActuator_to_loads w self = (external (compute_loads p w e), self)
    /\ (forall err : exn,
          fst (ForceActuator_to_loads w self) = inl err ->
          exists msg, err = External msg /\ compute_loads p w e = inl msg)
    /\ (forall loads : list Load,
          compute_loads p w e = inr loads ->
          fst (ForceActuator_to_loads w self) = inr loads).
Proof.
  intros Hr. apply ForceActuator_reachable_valid in Hr.
  destruct (ForceActuator_getters_valid _ Hr) as (e & p & Gf & Gp & Kf & Kp).
  exists e, p. split; [exact Gf|]. split; [exact Gp|].
  pose proof (ForceActuator_to_loads_stored w self _ _ Kf Kp) as Hrun.
  simpl in Hrun. rewrite Hrun. split; [reflexivity|]. simpl. split.
  - intros err. destruct (compute_loads p w e) as [msg|loads]; simpl.
    + intros [= <-]. now exists msg.
    + discriminate.
  - intros loads ->. reflexivity.
Qed.

(** X10.  The reaction frame alone decides whether there is a second
    load.  On every torque actuator a client can hold, while the engine
    forms the product torque*axis, assigning [None] to [reaction_frame]
    makes [to_loads] return exactly the load on the target frame, and
    assigning a frame or a body makes it return that same load followed
    by the load on the new reaction frame, when the engine forms the
    product (-torque)*axis; that first load is the first load of any list
    [to_loads] returned before.  While the product torque*axis raises, no
    assignment to [reaction_frame] makes [to_loads] return. *)
Theorem reaction_frame_toggles_second_load (self : TorqueActuator) :
  TorqueActuator_reachable self ->
  exists e v tf,
    TorqueActuator_get attr_torque self = (inr (PyExpr e), self)
    /\ TorqueActuator_get attr_axis self = (inr (PyVector v), self)
    /\ TorqueActuator_get attr_target_frame self
       = (inr (PyReferenceFrame tf), self)
    /\ (forall m1 : Vector,
          scale e v = inr m1 ->
          fst (TorqueActuator_to_loads
                 (snd (TorqueActuator_assign (assign_reaction_frame PyNone) self)))
          = inr [Torque tf m1]
          /\ (forall (x : pyval) (rf : ReferenceFrame) (m2 : Vector),
                resolve_frame x = Some rf ->
                scale (expr_neg e) v = inr m2 ->
                fst (TorqueActuator_to_loads
                       (snd (TorqueActuator_assign (assign_reaction_frame x) self)))
                = inr [Torque tf m1; Torque rf m2])
          /\ (forall loads : list Load,
                fst (TorqueActuator_to_loads self) = inr loads ->
                exists rest, loads = Torque tf m1 :: rest))
    /\ (forall (msg : string) (x : pyval),
          scale e v = inl msg ->
          fst (TorqueActuator_to_loads
                 (snd (TorqueActuator_assign (assign_reaction_frame x) self)))
          = inl (External msg)).
Proof.
  intros Hr. apply TorqueActuator_reachable_valid in Hr.
  destruct (TorqueActuator_getters_valid _ Hr)
    as (e & v & tf & Gt & Ga & Gf & Kt & Ka & Kf & Hrf).
  exists e, v, tf. do 3 (split; [assumption|]).
  split.
  - intros m1 H1. split; [|split].
    + cbn [TorqueActuator_assign]. rewrite reaction_frame_setter_None.
      cbn [snd]. now rewrite (TorqueActuator_to_loads_one _ e v tf m1).
    + intros x rf m2 Hx H2. cbn [TorqueActuator_assign].
      rewrite (reaction_frame_setter_accepts x rf self Hx).
      cbn [snd]. now rewrite (TorqueActuator_to_loads_two _ e v tf rf m1 m2).
    + intros loads.
      destruct (TorqueActuator_valid_run _ Hr)
        as (e' & v' & tf' & reaction & Kt' & Ka' & Kf' & _ & Hrun).
      rewrite Kt in Kt'. rewrite Ka in Ka'. rewrite Kf in Kf'.
      injection Kt' as <-. injection Ka' as <-. injection Kf' as <-.
      rewrite Hrun. cbn [fst]. intros H. apply torque_loads_returns in H.
      destruct H as (m & Hm & H). rewrite H1 in Hm. injection Hm as <-.
      destruct reaction as [rf|].
      * destruct H as (m2 & _ & ->). now exists [Torque rf m2].
      * subst loads. now exists [].
  - intros msg x H1.
    pose proof (TorqueActuator_assign_valid (assign_reaction_frame x) self Hr)
      as Hv'.
    destruct (TorqueActuator_valid_run _ Hv')
      as (e' & v' & tf' & reaction & Kt' & Ka' & _ & _ & Hrun).
    rewrite Hrun. cbn [fst].
    assert (Hsame :
      _torque (snd (TorqueActuator_assign (assign_reaction_frame x) self))
      = _torque self
      /\ _axis (snd (TorqueActuator_assign (assign_reaction_frame x) self))
         = _axis self).
    { rewrite TorqueActuator_assign_run.
      destruct (TorqueActuator_refuses (assign_reaction_frame x));
        split; reflexivity. }
    destruct Hsame as [St Sa]. rewrite St, Kt in Kt'. rewrite Sa, Ka in Ka'.
    injection Kt' as <-. injection Ka' as <-.
    unfold torque_loads. now rewrite H1.
Qed.

(** X11.  The representation names frames, also when bodies were given:
    an actuator built from rigid bodies, or at a pin joint, renders the
    names of the bodies' frames and of the joint's interframes, as the
    examples of the docstrings show. *)
Theorem repr_names_frames_of_bodies (e : Expr) (v : Vector) :
  (forall (target reaction : pyval) (tf rf : ReferenceFrame),
      resolve_frame target = Some tf ->
      resolve_frame reaction = Some rf ->
      exists self,
        TorqueActuator_new (PyExpr e) (PyVector v) target reaction = inr self
        /\ TorqueActuator_repr self
           = (inr ("TorqueActuator(" ++ expr_str e ++ ", axis=" ++ vector_str v
                   ++ ", target_frame=" ++ frame_name tf
                   ++ ", reaction_frame=" ++ frame_name rf ++ ")"), self))
  /\ (forall (target : pyval) (tf : ReferenceFrame),
      resolve_frame target = Some tf ->
      exists self,
        TorqueActuator_new3 (PyExpr e) (PyVector v) target = inr self
        /\ TorqueActuator_repr self
           = (inr ("TorqueActuator(" ++ expr_str e ++ ", axis=" ++ vector_str v
                   ++ ", target_frame=" ++ frame_name tf ++ ")"), self))
  /\ (forall joint : PinJoint,
      exists self,
        TorqueActuator_at_pin_joint (PyExpr e) (PyPinJoint joint) = inr self
        /\ TorqueActuator_repr self
           = (inr ("TorqueActuator(" ++ expr_str e
                   ++ ", axis=" ++ vector_str (joint_axis joint)
                   ++ ", target_frame=" ++ frame_name (parent_interframe joint)
                   ++ ", reaction_frame="
                   ++ frame_name (child_interframe joint) ++ ")"), self)).
Proof.
  split; [|split].
  - intros target reaction tf rf Ht Hr. eexists. split.
    + exact (TorqueActuator_new_accepts e v target reaction tf rf Ht Hr).
    + now apply TorqueActuator_repr_two_sided.
  - intros target tf Ht. eexists. split.
    + exact (TorqueActuator_new_accepts_None e v target tf Ht).
    + now apply TorqueActuator_repr_one_sided.
  - intros joint. eexists. split.
    + rewrite at_pin_joint_unfold.
      exact (TorqueActuator_new_accepts e (joint_axis joint)
               (PyReferenceFrame (parent_interframe joint))
               (PyReferenceFrame (child_interframe joint))
               (parent_interframe joint) (child_interframe joint)
               eq_refl eq_refl).
    + now apply TorqueActuator_repr_two_sided.
Qed.

(** X12.  The equal and opposite pair survives reassignment.  Given the
    laws of the algebra (additive inverse, product by a sum as the sum of
    the products, zero vector as the product by zero), on every torque
    actuator a client can hold whose reaction frame is not [None], any
    list [to_loads] returns is two torque loads, on the current target
    and reaction frames, whose vectors sum to the zero vector; and it
    returns that list whenever the engine forms the two products. *)
Theorem torque_pair_cancels_after_reassignment {L : EngineLaws E}
  (self : TorqueActuator) :
  TorqueActuator_reachable self ->
  fst (TorqueActuator_get attr_reaction_frame self) <> inr PyNone ->
  exists e v tf rf,
    TorqueActuator_get attr_torque self = (inr (PyExpr e), self)
    /\ TorqueActuator_get attr_axis self = (inr (PyVector v), self)
    /\ TorqueActuator_get attr_target_frame self
       = (inr (PyReferenceFrame tf), self)
    /\ TorqueActuator_get attr_reaction_frame self
       = (inr (PyReferenceFrame rf), self)
    /\ (forall m1 m2 : Vector,
          scale e v = inr m1 ->
          scale (expr_neg e) v = inr m2 ->
          TorqueActuator_to_loads self
          = (inr [Torque tf m1; Torque rf m2], self)
          /\ vec_add m1 m2 = vec_zero)
    /\ (forall loads : list Load,
          fst (TorqueActuator_to_loads self) = inr loads ->
          exists m1 m2,
            loads = [Torque tf m1; Torque rf m2]
            /\ vec_add m1 m2 = vec_zero).
Proof.
  intros Hr Hnone. apply TorqueActuator_reachable_valid in Hr.
  destruct (TorqueActuator_getters_valid _ Hr)
    as (e & v & tf & Gt & Ga & Gf & Kt & Ka & Kf & Hrf).
  destruct Hrf as [[Gr Kr] | [rf [Gr Kr]]].
  - rewrite Gr in Hnone. now destruct Hnone.
  - exists e, v, tf, rf. do 4 (split; [assumption|]).
    split.
    + intros m1 m2 H1 H2.
      split; [now apply (TorqueActuator_to_loads_two _ e v tf rf m1 m2)|].
      exact (opposite_moments_cancel e v m1 m2 (EngineLaws_at e v) H1 H2).
    + intros loads.
      rewrite (TorqueActuator_to_loads_run self e v tf (Some rf) Kt Ka Kf Kr).
      cbn [fst]. intros H. apply torque_loads_returns in H.
      destruct H as (m1 & H1 & m2 & H2 & ->). exists m1, m2.
      split; [reflexivity|].
      exact (opposite_moments_cancel e v m1 m2 (EngineLaws_at e v) H1 H2).
Qed.

(** X13.  [None] is refused as target frame, by the setter and by the
    constructor, and accepted as reaction frame.  On every other value
    the two frame setters agree: they accept the same values and store
    the same thing. *)
Theorem None_is_a_reaction_frame_only :
  (forall self : TorqueActuator,
      TorqueActuator_target_frame_setter PyNone self
      = (inl (TypeError "target_frame" PyNone cls_ReferenceFrame), self)
      /\ fst (TorqueActuator_reaction_frame_setter PyNone self) = inr tt)
  /\ (forall torque axis reaction_frame : pyval,
      isinstance torque cls_ExprType = true ->
      isinstance axis cls_Vector = true ->
      TorqueActuator_new torque axis PyNone reaction_frame
      = inl (TypeError "target_frame" PyNone cls_ReferenceFrame))
  /\ (forall (x : pyval) (self : TorqueActuator),
      is_None x = false ->
      (fst (TorqueActuator_target_frame_setter x self) = inr tt
       <-> fst (TorqueActuator_reaction_frame_setter x self) = inr tt)
      /\ (fst (TorqueActuator_target_frame_setter x self) = inr tt ->
          _target_frame (snd (TorqueActuator_target_frame_setter x self))
          = _reaction_frame (snd (TorqueActuator_reaction_frame_setter x self)))).
Proof.
  split; [|split].
  - intros self. split; reflexivity.
  - intros torque axis reaction_frame Ht Ha.
    destruct (isinstance_ExprType_inv _ Ht) as [e ->].
    destruct (isinstance_Vector_inv _ Ha) as [v ->]. reflexivity.
  - intros x self Hx.
    destruct x; simpl in Hx |- *; try discriminate Hx;
      (split; [split|]); intros H; try discriminate H; reflexivity.
Qed.

End Extras.

(** * Runs on the concrete engine *)

Lemma demo_laws : EngineLaws Demo.engine.
Proof.
  split; simpl.
  - intros e. lia.
  - intros a b [[x y] z] ma mb [= <-] [= <-]. f_equal.
    unfold Demo.vscale, Demo.vadd. f_equal; [f_equal|]; lia.
  - intros [[x y] z]. reflexivity.
Qed.

Lemma ForceActuator_to_loads_delegates_witness :
  isinstance Demo.spring_force cls_ExprType = true
  /\ isinstance Demo.linear_pathway cls_PathwayBase = true
  /\ compute_loads ("pA"%string, "pB"%string) (Demo.world 3) (-6)%Z
     = inr [Force "pA"%string (18, 0, 0)%Z; Force "pB"%string (-18, 0, 0)%Z]
  /\ exists self,
       ForceActuator_new Demo.spring_force Demo.linear_pathway = inr self
       /\ ForceActuator_to_loads (Demo.world 3) self
          = (inr [Force "pA"%string (18, 0, 0)%Z;
                  Force "pB"%string (-18, 0, 0)%Z], self).
Proof.
  split; [reflexivity|]. split; [reflexivity|]. split; [reflexivity|].
  destruct (ForceActuator_to_loads_delegates Demo.spring_force
              Demo.linear_pathway (Demo.world 3) eq_refl eq_refl)
    as (self & e & p & He & Hp & Hnew & _ & _ & Hloads & _).
  exists self. split; [exact Hnew|].
  apply Hloads. inversion He. inversion Hp. reflexivity.
Defined.

(** C2, as the specification states it, fails on magnitudes the setter
    accepts.  A quaternion is an [Expr]; the actuator is built, and
    [to_loads] raises at the product with the axis.  Infinity is an
    [Expr]; [to_loads] returns the two loads, and their vectors sum to
    [nan] components, not to the zero vector. *)
Lemma torque_pair_fails_on_accepted_magnitudes :
  isinstance Extended.q cls_ExprType = true
  /\ isinstance Extended.oo cls_ExprType = true
  /\ isinstance Extended.axis_z cls_Vector = true
  /\ frame_like Extended.frame_N = true
  /\ frame_like Extended.frame_A = true
  /\ TorqueActuator_new Extended.q Extended.axis_z
       Extended.frame_N Extended.frame_A
     = inr Extended.quaternion_actuator
  /\ TorqueActuator_to_loads Extended.quaternion_actuator
     = (inl Extended.sympify_error, Extended.quaternion_actuator)
  /\ TorqueActuator_new Extended.oo Extended.axis_z
       Extended.frame_N Extended.frame_A
     = inr Extended.infinite_actuator
  /\ TorqueActuator_to_loads Extended.infinite_actuator
     = (inr Extended.infinite_loads, Extended.infinite_actuator)
  /\ @vec_add Extended.engine
       (Extended.NaN, Extended.NaN, Extended.PosInf)
       (Extended.NaN, Extended.NaN, Extended.NegInf)
     <> @vec_zero Extended.engine.
Proof.
  repeat (split; [reflexivity|]). discriminate.
Qed.

Lemma TorqueActuator_to_loads_pair_witness :
  isinstance Demo.T cls_ExprType = true
  /\ isinstance Demo.axis_z cls_Vector = true
  /\ frame_like Demo.body_parent = true
  /\ frame_like Demo.frame_A = true
  /\ @scale Demo.engine 7%Z Demo.z_axis = inr (0, 0, 7)%Z
  /\ @scale Demo.engine (-7)%Z Demo.z_axis = inr (0, 0, -7)%Z
  /\ @algebra_laws_at Demo.engine 7%Z Demo.z_axis
  /\ exists self,
       TorqueActuator_new Demo.T Demo.axis_z Demo.body_parent Demo.frame_A
       = inr self
       /\ TorqueActuator_to_loads self
          = (inr [Torque Demo.N (0, 0, 7)%Z; Torque Demo.A (0, 0, -7)%Z], self)
       /\ @vec_add Demo.engine (0, 0, 7)%Z (0, 0, -7)%Z = @vec_zero Demo.engine.
Proof.
  assert (Hlaws : @algebra_laws_at Demo.engine 7%Z Demo.z_axis).
  { split; [reflexivity|]. split; [|reflexivity].
    intros m1 m2 [= <-] [= <-]. reflexivity. }
  do 6 (split; [reflexivity|]). split; [exact Hlaws|].
  destruct (TorqueActuator_to_loads_pair Demo.T Demo.axis_z
              Demo.body_parent Demo.frame_A eq_refl eq_refl eq_refl eq_refl)
    as (self & e & v & tf & rf & He & Hv & Htf & Hrf & Hnew & Hpair & _).
  inversion He. inversion Hv. inversion Htf. inversion Hrf. subst e v tf rf.
  exists self. split; [exact Hnew|].
  destruct (Hpair (0, 0, 7)%Z (0, 0, -7)%Z eq_refl eq_refl) as [Hloads Hsum].
  split; [exact Hloads | exact (Hsum Hlaws)].
Defined.

(** C3, as the specification states it, fails on a quaternion torque: the
    setter accepts it, the one-sided actuator is built, and [to_loads]
    raises at the product with the axis instead of returning a load. *)
Lemma single_torque_fails_on_a_quaternion :
  isinstance Extended.q cls_ExprType = true
  /\ isinstance Extended.axis_z cls_Vector = true
  /\ frame_like Extended.frame_N = true
  /\ TorqueActuator_new3 Extended.q Extended.axis_z Extended.frame_N
     = inr Extended.quaternion_one_sided
  /\ TorqueActuator_to_loads Extended.quaternion_one_sided
     = (inl Extended.sympify_error, Extended.quaternion_one_sided)
  /\ ~ (exists loads,
          fst (TorqueActuator_to_loads Extended.quaternion_one_sided)
          = inr loads).
Proof.
  repeat (split; [reflexivity|]). intros [loads H]. discriminate H.
Qed.

Lemma TorqueActuator_to_loads_single_witness :
  isinstance Demo.T cls_ExprType = true
  /\ isinstance Demo.axis_z cls_Vector = true
  /\ frame_like Demo.frame_N = true
  /\ @scale Demo.engine 7%Z Demo.z_axis = inr (0, 0, 7)%Z
  /\ exists self,
       TorqueActuator_new Demo.T Demo.axis_z Demo.frame_N PyNone = inr self
       /\ TorqueActuator_new3 Demo.T Demo.axis_z Demo.frame_N = inr self
       /\ TorqueActuator_to_loads self = (inr [Torque Demo.N (0, 0, 7)%Z], self).
Proof.
  do 4 (split; [reflexivity|]).
  destruct (TorqueActuator_to_loads_single Demo.T Demo.axis_z Demo.frame_N
              eq_refl eq_refl eq_refl)
    as (self & e & v & tf & He & Hv & Htf & Hnew & Hnew3 & Hone & _).
  inversion He. inversion Hv. inversion Htf. subst e v tf.
  exists self. split; [exact Hnew|]. split; [exact Hnew3|].
  exact (Hone (0, 0, 7)%Z eq_refl).
Defined.

Lemma at_pin_joint_refines_witness :
  isinstance Demo.T cls_ExprType = true
  /\ @scale Demo.engine 7%Z (joint_axis Demo.pin) = inr (0, 0, 7)%Z
  /\ @scale Demo.engine (-7)%Z (joint_axis Demo.pin) = inr (0, 0, -7)%Z
  /\ exists self,
       TorqueActuator_at_pin_joint Demo.T (PyPinJoint Demo.pin) = inr self
       /\ _torque self = Some Demo.T
       /\ _axis self = Some (PyVector (joint_axis Demo.pin))
       /\ _target_frame self = Some (PyReferenceFrame (parent_interframe Demo.pin))
       /\ _reaction_frame self = Some (PyReferenceFrame (child_interframe Demo.pin))
       /\ TorqueActuator_to_loads self
          = (inr [Torque (parent_interframe Demo.pin) (0, 0, 7)%Z;
                  Torque (child_interframe Demo.pin) (0, 0, -7)%Z], self).
Proof.
  do 3 (split; [reflexivity|]).
  destruct (proj2 (proj2 (at_pin_joint_refines Demo.T Demo.pin)) eq_refl)
    as (self & e & He & Hnew & Ht & Ha & Hf & Hr & Hloads & _).
  inversion He. subst e.
  exists self. do 5 (split; [assumption|]).
  exact (Hloads (0, 0, 7)%Z (0, 0, -7)%Z eq_refl eq_refl).
Defined.

Lemma demo_actuator_reachable : TorqueActuator_reachable Demo.a_torque_actuator.
Proof.
  apply (torque_reach_new Demo.T Demo.axis_z Demo.body_parent Demo.body_child).
  reflexivity.
Qed.

Lemma frames_are_stored_never_bodies_witness :
  TorqueActuator_reachable
    (snd (TorqueActuator_assign (assign_reaction_frame Demo.five)
            (snd (TorqueActuator_assign (assign_target_frame Demo.body_child)
                    Demo.a_torque_actuator))))
  /\ _target_frame
       (snd (TorqueActuator_assign (assign_reaction_frame Demo.five)
               (snd (TorqueActuator_assign (assign_target_frame Demo.body_child)
                       Demo.a_torque_actuator))))
     = Some Demo.frame_A
  /\ stored_as (Some Demo.frame_A) cls_ReferenceFrame = true
  /\ stored_as (Some Demo.frame_A) cls_RigidBody = false
  /\ (stored_as (Some Demo.frame_A) cls_ReferenceFrame
      || stored_None (Some Demo.frame_A)) = true
  /\ stored_as (Some Demo.frame_A) cls_RigidBody = false.
Proof.
  assert (R : TorqueActuator_reachable
                (snd (TorqueActuator_assign (assign_reaction_frame Demo.five)
                   (snd (TorqueActuator_assign (assign_target_frame Demo.body_child)
                           Demo.a_torque_actuator))))).
  { do 2 apply torque_reach_assign. exact demo_actuator_reachable. }
  split; [exact R|]. split; [reflexivity|].
  exact (proj2 (proj2 (@frames_are_stored_never_bodies Demo.engine)) _ R).
Defined.

Lemma invalid_assignment_raises_at_once_witness :
  (TorqueActuator_refuses (assign_target_frame Demo.five)
   = Some (TypeError "target_frame" Demo.five cls_ReferenceFrame)
   /\ TorqueActuator_assign (assign_target_frame Demo.five) Demo.a_torque_actuator
      = (inl (TypeError "target_frame" Demo.five cls_ReferenceFrame),
         Demo.a_torque_actuator))
  /\ (ForceActuator_refuses (assign_force Demo.linear_pathway)
      = Some (TypeError "force" Demo.linear_pathway cls_ExprType)
      /\ ForceActuator_assign (assign_force Demo.linear_pathway) Demo.a_force_actuator
         = (inl (TypeError "force" Demo.linear_pathway cls_ExprType),
            Demo.a_force_actuator))
  /\ (ForceActuator_first_invalid Demo.spring_force Demo.five
      = Some (TypeError "pathway" Demo.five cls_PathwayBase)
      /\ ForceActuator_new Demo.spring_force Demo.five
         = inl (TypeError "pathway" Demo.five cls_PathwayBase))
  /\ (TorqueActuator_first_invalid Demo.T Demo.five Demo.five Demo.five
      = Some (TypeError "axis" Demo.five cls_Vector)
      /\ TorqueActuator_new Demo.T Demo.five Demo.five Demo.five
         = inl (TypeError "axis" Demo.five cls_Vector))
  /\ (ForceActuator_new Demo.spring_force Demo.linear_pathway
      = inr Demo.a_force_actuator
      /\ ForceActuator_first_invalid Demo.spring_force Demo.linear_pathway = None
      /\ ForceActuator_valid Demo.a_force_actuator = true)
  /\ (TorqueActuator_new Demo.T Demo.axis_z Demo.body_parent PyNone
      = inr Demo.a_one_sided_actuator
      /\ TorqueActuator_first_invalid Demo.T Demo.axis_z Demo.body_parent PyNone
         = None
      /\ TorqueActuator_valid Demo.a_one_sided_actuator = true).
Proof.
  destruct (@invalid_assignment_raises_at_once Demo.engine)
    as (H1 & H2 & H3 & H4 & H5 & H6).
  split; [split; [reflexivity | apply H2; reflexivity]|].
  split; [split; [reflexivity | apply H1; reflexivity]|].
  split; [split; [reflexivity | apply H3; reflexivity]|].
  split; [split; [reflexivity | apply H4; reflexivity]|].
  split; [split; [reflexivity | apply H5; reflexivity]|].
  split; [reflexivity | apply H6; reflexivity].
Defined.

(** C7, as the specification states it, fails on a joint of another class
    that exposes the three attributes: [at_pin_joint] refuses it. *)
Lemma at_pin_joint_rejects_other_joints :
  exposes_joint_attributes Demo.prismatic = true
  /\ isinstance Demo.T cls_ExprType = true
  /\ TorqueActuator_at_pin_joint Demo.T Demo.prismatic
     = inl (TypeError "pin_joint" Demo.prismatic cls_PinJoint)
  /\ ~ (forall torque x : pyval,
         isinstance torque cls_ExprType = true ->
         exposes_joint_attributes x = true ->
         exists self, TorqueActuator_at_pin_joint torque x = inr self).
Proof.
  split; [reflexivity|]. split; [reflexivity|]. split; [reflexivity|].
  intros H.
  destruct (H Demo.T Demo.prismatic eq_refl eq_refl) as [self Hself].
  discriminate Hself.
Qed.

Lemma at_pin_joint_is_nominal_witness :
  (isinstance Demo.T cls_ExprType = true
   /\ exposes_joint_attributes (PyPinJoint Demo.pin) = true
   /\ exists self,
        TorqueActuator_at_pin_joint Demo.T (PyPinJoint Demo.pin) = inr self
        /\ _axis self = Some (PyVector (joint_axis Demo.pin))
        /\ _target_frame self = Some (PyReferenceFrame (parent_interframe Demo.pin))
        /\ _reaction_frame self
           = Some (PyReferenceFrame (child_interframe Demo.pin)))
  /\ (isinstance Demo.prismatic cls_PinJoint = false
      /\ TorqueActuator_at_pin_joint Demo.T Demo.prismatic
         = inl (TypeError "pin_joint" Demo.prismatic cls_PinJoint))
  /\ (exposes_joint_attributes Demo.five = false
      /\ isinstance Demo.five cls_PinJoint = false).
Proof.
  destruct (@at_pin_joint_is_nominal Demo.engine Demo.T) as (H1 & H2 & H3).
  split; [split; [reflexivity | apply H1; reflexivity]|].
  split; [split; [reflexivity | apply H2; reflexivity]|].
  split; [reflexivity | apply H3; reflexivity].
Defined.


Lemma TorqueActuator_repr_renders_witness :
  (TorqueActuator_repr Demo.a_torque_actuator
   = (inr "TorqueActuator(7, axis=(0, 0, 1), target_frame=N, reaction_frame=A)",
      Demo.a_torque_actuator))
  /\ (TorqueActuator_repr Demo.a_one_sided_actuator
      = (inr "TorqueActuator(7, axis=(0, 0, 1), target_frame=N)",
         Demo.a_one_sided_actuator))
  /\ (forall text,
        fst (TorqueActuator_repr Demo.a_one_sided_actuator) = inr text ->
        contains "reaction_frame" text = false).
Proof.
  split; [|split].
  - apply (proj1 (TorqueActuator_repr_renders Demo.a_torque_actuator
                    7%Z Demo.z_axis Demo.N eq_refl eq_refl eq_refl) Demo.A).
    reflexivity.
  - apply (proj2 (TorqueActuator_repr_renders Demo.a_one_sided_actuator
                    7%Z Demo.z_axis Demo.N eq_refl eq_refl eq_refl)).
    reflexivity.
  - apply (proj2 (TorqueActuator_repr_renders Demo.a_one_sided_actuator
                    7%Z Demo.z_axis Demo.N eq_refl eq_refl eq_refl));
      reflexivity.
Defined.

Lemma failed_assignment_keeps_state_witness :
  (fst (ForceActuator_assign (assign_pathway Demo.five) Demo.a_force_actuator)
   = inl (TypeError "pathway" Demo.five cls_PathwayBase)
   /\ ForceActuator_refuses (assign_pathway Demo.five)
      = Some (TypeError "pathway" Demo.five cls_PathwayBase)
   /\ snd (ForceActuator_assign (assign_pathway Demo.five) Demo.a_force_actuator)
      = Demo.a_force_actuator
   /\ ForceActuator_to_loads (Demo.world 3)
        (snd (ForceActuator_assign (assign_pathway Demo.five) Demo.a_force_actuator))
      = ForceActuator_to_loads (Demo.world 3) Demo.a_force_actuator)
  /\ (fst (TorqueActuator_assign (assign_reaction_frame Demo.five)
             Demo.a_torque_actuator)
      = inl (TypeError "reaction_frame" Demo.five cls_ReferenceFrame)
      /\ TorqueActuator_refuses (assign_reaction_frame Demo.five)
         = Some (TypeError "reaction_frame" Demo.five cls_ReferenceFrame)
      /\ snd (TorqueActuator_assign (assign_reaction_frame Demo.five)
                Demo.a_torque_actuator)
         = Demo.a_torque_actuator
      /\ TorqueActuator_to_loads
           (snd (TorqueActuator_assign (assign_reaction_frame Demo.five)
                   Demo.a_torque_actuator))
         = TorqueActuator_to_loads Demo.a_torque_actuator).
Proof.
  destruct (@failed_assignment_keeps_state Demo.engine Demo.pathways) as (H1 & H2).
  split; [split; [reflexivity | apply H1; reflexivity]|].
  split; [reflexivity | apply H2; reflexivity].
Defined.

(** ** Runs of the further properties *)

Lemma demo_force_actuator_reachable :
  ForceActuator_reachable
    (snd (ForceActuator_assign (assign_force Demo.T) Demo.a_force_actuator)).
Proof.
  apply force_reach_assign.
  apply (force_reach_new Demo.spring_force Demo.linear_pathway). reflexivity.
Qed.

Lemma ForceActuator_repr_renders_witness :
  ForceActuator_reachable
    (snd (ForceActuator_assign (assign_force Demo.T) Demo.a_force_actuator))
  /\ exists e p,
       ForceActuator_get attr_force
         (snd (ForceActuator_assign (assign_force Demo.T) Demo.a_force_actuator))
       = (inr (PyExpr e),
          snd (ForceActuator_assign (assign_force Demo.T) Demo.a_force_actuator))
       /\ ForceActuator_get attr_pathway
            (snd (ForceActuator_assign (assign_force Demo.T) Demo.a_force_actuator))
          = (inr (PyPathway p),
             snd (ForceActuator_assign (assign_force Demo.T) Demo.a_force_actuator))
       /\ ForceActuator_repr
            (snd (ForceActuator_assign (assign_force Demo.T) Demo.a_force_actuator))
          = (inr ("ForceActuator(" ++ expr_str e ++ ", " ++ pathway_str p ++ ")"),
             snd (ForceActuator_assign (assign_force Demo.T) Demo.a_force_actuator)).
Proof.
  split; [exact demo_force_actuator_reachable|].
  exact (ForceActuator_repr_renders _ demo_force_actuator_reachable).
Defined.

Lemma assignment_then_read_witness :
  (ForceActuator_refuses (assign_force Demo.T) = None
   /\ exists self',
        ForceActuator_assign (assign_force Demo.T) Demo.a_force_actuator
        = (inr tt, self')
        /\ ForceActuator_get attr_force self' = (inr Demo.T, self'))
  /\ (TorqueActuator_refuses (assign_target_frame Demo.body_child) = None
      /\ exists self',
           TorqueActuator_assign (assign_target_frame Demo.body_child)
             Demo.a_torque_actuator = (inr tt, self')
           /\ TorqueActuator_get attr_target_frame self' = (inr Demo.frame_A, self')).
Proof.
  destruct (@assignment_then_read Demo.engine) as (H1 & H2 & _ & _).
  split.
  - split; [reflexivity|].
    exact (H1 (assign_force Demo.T) Demo.a_force_actuator eq_refl).
  - split; [reflexivity|].
    exact (H2 (assign_target_frame Demo.body_child) Demo.a_torque_actuator eq_refl).
Defined.

Lemma assignment_leaves_other_attributes_witness :
  (ForceActuator_attribute_of (assign_force Demo.five) <> attr_pathway
   /\ fst (ForceActuator_get attr_pathway
             (snd (ForceActuator_assign (assign_force Demo.five)
                     Demo.a_force_actuator)))
      = fst (ForceActuator_get attr_pathway Demo.a_force_actuator))
  /\ (TorqueActuator_attribute_of (assign_torque Demo.spring_force) <> attr_axis
      /\ fst (TorqueActuator_get attr_axis
                (snd (TorqueActuator_assign (assign_torque Demo.spring_force)
                        Demo.a_torque_actuator)))
         = fst (TorqueActuator_get attr_axis Demo.a_torque_actuator)).
Proof.
  destruct (@assignment_leaves_other_attributes Demo.engine) as (H1 & H2).
  split.
  - split; [discriminate|]. apply H1. discriminate.
  - split; [discriminate|]. apply H2. discriminate.
Defined.

Lemma assignments_compose_witness :
  (TorqueActuator_attribute_of (assign_torque Demo.spring_force)
   <> TorqueActuator_attribute_of (assign_reaction_frame PyNone)
   /\ TorqueActuator_assign_all
        [assign_torque Demo.spring_force; assign_reaction_frame PyNone]
        Demo.a_torque_actuator
      = TorqueActuator_assign_all
          [assign_reaction_frame PyNone; assign_torque Demo.spring_force]
          Demo.a_torque_actuator)
  /\ (TorqueActuator_attribute_of (assign_torque Demo.spring_force)
      = TorqueActuator_attribute_of (assign_torque Demo.T)
      /\ TorqueActuator_refuses (assign_torque Demo.T) = None
      /\ TorqueActuator_assign_all
           [assign_torque Demo.spring_force; assign_torque Demo.T]
           Demo.a_one_sided_actuator
         = TorqueActuator_assign_all [assign_torque Demo.T]
             Demo.a_one_sided_actuator)
  /\ (ForceActuator_attribute_of (assign_force Demo.T)
      <> ForceActuator_attribute_of (assign_pathway Demo.five)
      /\ ForceActuator_assign_all [assign_force Demo.T; assign_pathway Demo.five]
           Demo.a_force_actuator
         = ForceActuator_assign_all [assign_pathway Demo.five; assign_force Demo.T]
             Demo.a_force_actuator)
  /\ (ForceActuator_attribute_of (assign_force Demo.five)
      = ForceActuator_attribute_of (assign_force Demo.T)
      /\ ForceActuator_refuses (assign_force Demo.T) = None
      /\ ForceActuator_assign_all [assign_force Demo.five; assign_force Demo.T]
           Demo.a_force_actuator
         = ForceActuator_assign_all [assign_force Demo.T] Demo.a_force_actuator).
Proof.
  destruct (@assignments_compose Demo.engine) as (_ & H2 & H3 & _ & H5 & H6).
  split; [split; [discriminate | apply H2; discriminate]|].
  split; [split; [reflexivity | split; [reflexivity | apply H3; reflexivity]]|].
  split; [split; [discriminate | apply H5; discriminate]|].
  split; [reflexivity | split; [reflexivity | apply H6; reflexivity]].
Defined.

Lemma reassigning_everything_rebuilds_witness :
  (ForceActuator_new Demo.spring_force Demo.linear_pathway
   = inr Demo.a_force_actuator
   /\ ForceActuator_assign_all
        [assign_force Demo.spring_force; assign_pathway Demo.linear_pathway]
        (snd (ForceActuator_assign (assign_force Demo.T) Demo.a_force_actuator))
      = Demo.a_force_actuator)
  /\ (TorqueActuator_new Demo.T Demo.axis_z Demo.body_parent PyNone
      = inr Demo.a_one_sided_actuator
      /\ TorqueActuator_assign_all
           [assign_torque Demo.T; assign_axis Demo.axis_z;
            assign_target_frame Demo.body_parent; assign_reaction_frame PyNone]
           Demo.a_torque_actuator
         = Demo.a_one_sided_actuator).
Proof.
  destruct (@reassigning_everything_rebuilds Demo.engine) as (H1 & H2).
  split; [split; [reflexivity | apply H1; reflexivity]|].
  split; [reflexivity | apply H2; reflexivity].
Defined.

Lemma at_pin_joint_outcome_witness :
  (TorqueActuator_at_pin_joint Demo.five (PyPinJoint Demo.pin)
   = inl (TypeError "torque" Demo.five cls_ExprType)
   /\ TypeError "torque" Demo.five cls_ExprType
      = if isinstance (PyPinJoint Demo.pin) cls_PinJoint
        then TypeError "torque" Demo.five cls_ExprType
        else TypeError "pin_joint" (PyPinJoint Demo.pin) cls_PinJoint)
  /\ (TorqueActuator_at_pin_joint Demo.five Demo.prismatic
      = inl (TypeError "pin_joint" Demo.prismatic cls_PinJoint)
      /\ TypeError "pin_joint" Demo.prismatic cls_PinJoint
         = if isinstance Demo.prismatic cls_PinJoint
           then TypeError "torque" Demo.five cls_ExprType
           else TypeError "pin_joint" Demo.prismatic cls_PinJoint)
  /\ (isinstance (PyPinJoint Demo.pin) cls_PinJoint
      && isinstance Demo.T cls_ExprType = true
      /\ exists self,
           TorqueActuator_at_pin_joint Demo.T (PyPinJoint Demo.pin) = inr self).
Proof.
  split; [split; [reflexivity|]|split; [split; [reflexivity|]|split; [reflexivity|]]].
  - apply (proj2 (at_pin_joint_outcome Demo.five (PyPinJoint Demo.pin))).
    reflexivity.
  - apply (proj2 (at_pin_joint_outcome Demo.five Demo.prismatic)). reflexivity.
  - apply (proj1 (at_pin_joint_outcome Demo.T (PyPinJoint Demo.pin))).
    reflexivity.
Defined.

Lemma construction_then_read_witness :
  (ForceActuator_first_invalid Demo.spring_force Demo.linear_pathway = None
   /\ exists self,
        ForceActuator_new Demo.spring_force Demo.linear_pathway = inr self
        /\ ForceActuator_get attr_force self = (inr Demo.spring_force, self)
        /\ ForceActuator_get attr_pathway self = (inr Demo.linear_pathway, self))
  /\ (TorqueActuator_first_invalid Demo.T Demo.axis_z Demo.body_parent
        Demo.body_child = None
      /\ exists self,
           TorqueActuator_new Demo.T Demo.axis_z Demo.body_parent Demo.body_child
           = inr self
           /\ TorqueActuator_get attr_torque self = (inr Demo.T, self)
           /\ TorqueActuator_get attr_axis self = (inr Demo.axis_z, self)
           /\ TorqueActuator_get attr_target_frame self
              = (inr (stored_frame Demo.body_parent), self)
           /\ TorqueActuator_get attr_reaction_frame self
              = (inr (stored_frame Demo.body_child), self)).
Proof.
  destruct (@construction_then_read Demo.engine) as (H1 & H2).
  split; [split; [reflexivity | apply H1; reflexivity]|].
  split; [reflexivity | apply H2; reflexivity].
Defined.

Lemma demo_reassigned_reachable :
  TorqueActuator_reachable Demo.a_reassigned_actuator.
Proof.
  unfold Demo.a_reassigned_actuator, TorqueActuator_assign_all.
  cbn [fold_left]. do 3 apply torque_reach_assign.
  exact demo_actuator_reachable.
Qed.

Lemma demo_reassigned_force_reachable :
  ForceActuator_reachable Demo.a_reassigned_force_actuator.
Proof.
  unfold Demo.a_reassigned_force_actuator, ForceActuator_assign_all.
  cbn [fold_left]. do 2 apply force_reach_assign.
  apply (force_reach_new Demo.spring_force Demo.linear_pathway). reflexivity.
Qed.

Lemma TorqueActuator_to_loads_follows_attributes_witness :
  TorqueActuator_reachable Demo.a_reassigned_actuator
  /\ TorqueActuator_to_loads Demo.a_reassigned_actuator
     = (inr [Torque Demo.A (0, 0, -6)%Z; Torque Demo.A (0, 0, 6)%Z],
        Demo.a_reassigned_actuator)
  /\ (forall loads : list Load,
        fst (TorqueActuator_to_loads Demo.a_reassigned_actuator) = inr loads ->
        forallb is_Torque loads = true /\ 1 <= length loads <= 2)
  /\ (forall err : exn,
        fst (TorqueActuator_to_loads Demo.a_reassigned_actuator) = inl err ->
        exists msg, err = External msg).
Proof.
  split; [exact demo_reassigned_reachable|].
  destruct (TorqueActuator_to_loads_follows_attributes _ demo_reassigned_reachable)
    as (e & v & tf & Gt & Ga & Gf & Hcase & Hret & Herr).
  vm_compute in Gt, Ga, Gf. inversion Gt. inversion Ga. inversion Gf.
  subst e v tf. split; [|split].
  - destruct Hcase as [[Gr _] | (rf & Gr & Hrun)].
    + vm_compute in Gr. discriminate Gr.
    + vm_compute in Gr. inversion Gr. subst rf. exact Hrun.
  - exact Hret.
  - intros err H. destruct (Herr err H) as (msg & Hmsg & _). now exists msg.
Defined.

Lemma ForceActuator_to_loads_follows_attributes_witness :
  ForceActuator_reachable Demo.a_reassigned_force_actuator
  /\ exists e p,
       ForceActuator_get attr_force Demo.a_reassigned_force_actuator
       = (inr (PyExpr e), Demo.a_reassigned_force_actuator)
       /\ ForceActuator_get attr_pathway Demo.a_reassigned_force_actuator
          = (inr (PyPathway p), Demo.a_reassigned_force_actuator)
       /\ ForceActuator_to_loads (Demo.world 3) Demo.a_reassigned_force_actuator
          = (external (compute_loads p (Demo.world 3) e),
             Demo.a_reassigned_force_actuator)
       /\ (forall err : exn,
             fst (ForceActuator_to_loads (Demo.world 3)
                    Demo.a_reassigned_force_actuator) = inl err ->
             exists msg, err = External msg
                         /\ compute_loads p (Demo.world 3) e = inl msg)
       /\ (forall loads : list Load,
             compute_loads p (Demo.world 3) e = inr loads ->
             fst (ForceActuator_to_loads (Demo.world 3)
                    Demo.a_reassigned_force_actuator) = inr loads).
Proof.
  split; [exact demo_reassigned_force_reachable|].
  exact (ForceActuator_to_loads_follows_attributes (Demo.world 3) _
           demo_reassigned_force_reachable).
Defined.

Lemma reaction_frame_toggles_second_load_witness :
  TorqueActuator_reachable Demo.a_reassigned_actuator
  /\ @scale Demo.engine (-6)%Z Demo.z_axis = inr (0, 0, -6)%Z
  /\ @scale Demo.engine 6%Z Demo.z_axis = inr (0, 0, 6)%Z
  /\ resolve_frame Demo.body_parent = Some Demo.N
  /\ fst (TorqueActuator_to_loads
            (snd (TorqueActuator_assign (assign_reaction_frame PyNone)
                    Demo.a_reassigned_actuator)))
     = inr [Torque Demo.A (0, 0, -6)%Z]
  /\ fst (TorqueActuator_to_loads
            (snd (TorqueActuator_assign (assign_reaction_frame Demo.body_parent)
                    Demo.a_reassigned_actuator)))
     = inr [Torque Demo.A (0, 0, -6)%Z; Torque Demo.N (0, 0, 6)%Z]
  /\ (forall loads : list Load,
        fst (TorqueActuator_to_loads Demo.a_reassigned_actuator) = inr loads ->
        exists rest, loads = Torque Demo.A (0, 0, -6)%Z :: rest).
Proof.
  split; [exact demo_reassigned_reachable|].
  do 3 (split; [reflexivity|]).
  destruct (reaction_frame_toggles_second_load _ demo_reassigned_reachable)
    as (e & v & tf & Gt & Ga & Gf & Hok & _).
  vm_compute in Gt, Ga, Gf. inversion Gt. inversion Ga. inversion Gf.
  subst e v tf.
  destruct (Hok (0, 0, -6)%Z eq_refl) as (HNone & Hframe & Hfirst).
  split; [exact HNone|]. split; [|exact Hfirst].
  exact (Hframe Demo.body_parent Demo.N (0, 0, 6)%Z eq_refl eq_refl).
Defined.

Lemma repr_names_frames_of_bodies_witness :
  (resolve_frame Demo.body_parent = Some Demo.N
   /\ resolve_frame Demo.body_child = Some Demo.A
   /\ exists self,
        TorqueActuator_new Demo.T Demo.axis_z Demo.body_parent Demo.body_child
        = inr self
        /\ TorqueActuator_repr self
           = (inr "TorqueActuator(7, axis=(0, 0, 1), target_frame=N, reaction_frame=A)",
              self))
  /\ (resolve_frame Demo.body_parent = Some Demo.N
      /\ exists self,
           TorqueActuator_new3 Demo.T Demo.axis_z Demo.body_parent = inr self
           /\ TorqueActuator_repr self
              = (inr "TorqueActuator(7, axis=(0, 0, 1), target_frame=N)", self)).
Proof.
  destruct (@repr_names_frames_of_bodies Demo.engine 7%Z Demo.z_axis)
    as (H1 & H2 & _).
  split.
  - split; [reflexivity|]. split; [reflexivity|].
    exact (H1 Demo.body_parent Demo.body_child Demo.N Demo.A eq_refl eq_refl).
  - split; [reflexivity|].
    exact (H2 Demo.body_parent Demo.N eq_refl).
Defined.

Lemma torque_pair_cancels_after_reassignment_witness :
  TorqueActuator_reachable Demo.a_reassigned_actuator
  /\ fst (TorqueActuator_get attr_reaction_frame Demo.a_reassigned_actuator)
     <> inr PyNone
  /\ @scale Demo.engine (-6)%Z Demo.z_axis = inr (0, 0, -6)%Z
  /\ @scale Demo.engine 6%Z Demo.z_axis = inr (0, 0, 6)%Z
  /\ TorqueActuator_to_loads Demo.a_reassigned_actuator
     = (inr [Torque Demo.A (0, 0, -6)%Z; Torque Demo.A (0, 0, 6)%Z],
        Demo.a_reassigned_actuator)
  /\ @vec_add Demo.engine (0, 0, -6)%Z (0, 0, 6)%Z = @vec_zero Demo.engine
  /\ (forall loads : list Load,
        fst (TorqueActuator_to_loads Demo.a_reassigned_actuator) = inr loads ->
        exists m1 m2,
          loads = [Torque Demo.A m1; Torque Demo.A m2]
          /\ vec_add m1 m2 = vec_zero).
Proof.
  assert (H : fst (TorqueActuator_get attr_reaction_frame
                     Demo.a_reassigned_actuator) <> inr PyNone)
    by discriminate.
  split; [exact demo_reassigned_reachable|]. split; [exact H|].
  do 2 (split; [reflexivity|]).
  destruct (torque_pair_cancels_after_reassignment (L := demo_laws) _
              demo_reassigned_reachable H)
    as (e & v & tf & rf & Gt & Ga & Gf & Gr & Hpair & Hany).
  vm_compute in Gt, Ga, Gf, Gr.
  inversion Gt. inversion Ga. inversion Gf. inversion Gr. subst e v tf rf.
  destruct (Hpair (0, 0, -6)%Z (0, 0, 6)%Z eq_refl eq_refl) as [Hloads Hsum].
  split; [exact Hloads|]. split; [exact Hsum | exact Hany].
Defined.

Lemma None_is_a_reaction_frame_only_witness :
  (isinstance Demo.T cls_ExprType = true
   /\ isinstance Demo.axis_z cls_Vector = true
   /\ TorqueActuator_new Demo.T Demo.axis_z PyNone Demo.frame_A
      = inl (TypeError "target_frame" PyNone cls_ReferenceFrame))
  /\ (is_None Demo.body_child = false
      /\ fst (TorqueActuator_target_frame_setter Demo.body_child
                Demo.a_torque_actuator) = inr tt
      /\ _target_frame
           (snd (TorqueActuator_target_frame_setter Demo.body_child
                   Demo.a_torque_actuator))
         = _reaction_frame
             (snd (TorqueActuator_reaction_frame_setter Demo.body_child
                     Demo.a_torque_actuator))).
Proof.
  destruct (@None_is_a_reaction_frame_only Demo.engine) as (_ & H2 & H3).
  split.
  - split; [reflexivity|]. split; [reflexivity|].
    exact (H2 Demo.T Demo.axis_z Demo.frame_A eq_refl eq_refl).
  - split; [reflexivity|]. split; [reflexivity|].
    exact (proj2 (H3 Demo.body_child Demo.a_torque_actuator eq_refl) eq_refl).
Defined.
